(** * Volumetric slicing, prediction normalisation and tumour metrics

    A shallow embedding of the slicing / overlay / metrics core of the
    backend ([backend/app.py], [backend/utils/image_processing_helpers.py],
    [backend/utils/metrics_helpers.py], [backend/utils/predict_seg.py]).

    Conventions of the embedding:
    - a numpy array is a shape together with its row-major buffer;
    - Python integers are [Z], array extents and positions are [nat];
    - float64 / float32 values are exact rationals [Q]: binary rounding,
      NaN and infinities are not represented;
    - a Python exception is the [Raise] branch of [result]. *)

From Stdlib Require Import List ZArith QArith Qround Lia String Ascii Bool Arith.
From Stdlib Require Import DecimalString Field Qabs Lqa Qminmax.
Import ListNotations.

Close Scope Q_scope.
Local Open Scope nat_scope.

(** ** Exceptions and the error monad *)

Inductive exn : Type :=
| IndexError
| ValueError (msg : string)
| KeyError
| LinAlgError
| Cv2Error
| FileNotFoundError (msg : string).

Inductive result (A : Type) : Type :=
| Ok (a : A)
| Raise (e : exn).
Arguments Ok {A} a.
Arguments Raise {A} e.

Definition bind {A B} (r : result A) (k : A -> result B) : result B :=
  match r with
  | Ok a => k a
  | Raise e => Raise e
  end.

Notation "'let*' x ':=' r 'in' k" := (bind r (fun x => k))
  (at level 10, x pattern, r at level 100, k at level 200).

Definition is_ok {A} (r : result A) : bool :=
  match r with Ok _ => true | Raise _ => false end.

(** ** Arrays *)

(** [tabulate2 r c f] is the row-major buffer of the [r] x [c] array whose
    entry [(i, j)] is [f i j]; [tabulate3] likewise for three axes. *)
Definition tabulate2 {A} (r c : nat) (f : nat -> nat -> A) : list A :=
  flat_map (fun i => map (f i) (seq 0 c)) (seq 0 r).

Definition tabulate3 {A} (a b c : nat) (f : nat -> nat -> nat -> A) : list A :=
  flat_map (fun i => tabulate2 b c (f i)) (seq 0 a).

Record ndarray2 (A : Type) : Type := mk2 {
  rows : nat;
  cols : nat;
  cells2 : list A
}.
Arguments mk2 {A}.
Arguments rows {A}.
Arguments cols {A}.
Arguments cells2 {A}.

Record ndarray3 (A : Type) : Type := mk3 {
  dim0 : nat;
  dim1 : nat;
  dim2 : nat;
  cells3 : list A
}.
Arguments mk3 {A}.
Arguments dim0 {A}.
Arguments dim1 {A}.
Arguments dim2 {A}.
Arguments cells3 {A}.

Definition shape2 {A} (m : ndarray2 A) : nat * nat := (rows m, cols m).
Definition shape3 {A} (v : ndarray3 A) : nat * nat * nat := (dim0 v, dim1 v, dim2 v).

(** The buffer has exactly as many cells as the shape announces. *)
Definition wf2 {A} (m : ndarray2 A) : Prop := List.length (cells2 m) = rows m * cols m.
Definition wf3 {A} (v : ndarray3 A) : Prop :=
  List.length (cells3 v) = dim0 v * dim1 v * dim2 v.

Definition shape2_eqb (s t : nat * nat) : bool :=
  (fst s =? fst t) && (snd s =? snd t).

Definition shape3_eqb (s t : nat * nat * nat) : bool :=
  match s, t with
  | (a, b, c), (a', b', c') => (a =? a') && (b =? b') && (c =? c')
  end.

(** The source position read for destination position [k] by
    nearest-neighbour resampling from extent [src] to extent [dst]:
    [floor(k * src / dst)], clamped to the last source position. The scale
    is taken exactly. *)
Definition nearest_position (k src dst : nat) : nat :=
  Nat.min (k * src / dst) (src - 1).

Section Indexing.
Context {A : Type} (dflt : A).

Definition get2 (m : ndarray2 A) (i j : nat) : A :=
  nth (i * cols m + j) (cells2 m) dflt.

Definition get3 (v : ndarray3 A) (i j k : nat) : A :=
  nth ((i * dim1 v + j) * dim2 v + k) (cells3 v) dflt.

(** [v[i, :, :]], [v[:, j, :]] and [v[:, :, k]]. *)
Definition take_axis0 (v : ndarray3 A) (i : nat) : ndarray2 A :=
  mk2 (dim1 v) (dim2 v) (tabulate2 (dim1 v) (dim2 v) (fun j k => get3 v i j k)).

Definition take_axis1 (v : ndarray3 A) (j : nat) : ndarray2 A :=
  mk2 (dim0 v) (dim2 v) (tabulate2 (dim0 v) (dim2 v) (fun i k => get3 v i j k)).

Definition take_axis2 (v : ndarray3 A) (k : nat) : ndarray2 A :=
  mk2 (dim0 v) (dim1 v) (tabulate2 (dim0 v) (dim1 v) (fun i j => get3 v i j k)).

(** [np.rot90(m)]: one counter-clockwise quarter turn,
    [rot90(m)[i, j] = m[j, cols - 1 - i]]. *)
Definition rot90 (m : ndarray2 A) : ndarray2 A :=
  mk2 (cols m) (rows m)
      (tabulate2 (cols m) (rows m) (fun i j => get2 m j (cols m - 1 - i))).

(** [cv2.resize(src, (dw, dh), interpolation=cv2.INTER_NEAREST)].
    OpenCV rejects an empty source and an empty destination size. A
    destination pixel copies the source pixel at [nearest_position]. *)
Definition cv2_resize_nearest (src : ndarray2 A) (dw dh : nat)
  : result (ndarray2 A) :=
  if (rows src =? 0) || (cols src =? 0) || (dw =? 0) || (dh =? 0)
  then Raise Cv2Error
  else Ok (mk2 dh dw
             (tabulate2 dh dw (fun y x =>
                get2 src (nearest_position y (rows src) dh)
                         (nearest_position x (cols src) dw)))).
End Indexing.

(** Integer indexing of one axis: negative positions count from the end,
    anything outside [-extent, extent) raises [IndexError]. *)
Definition py_index (extent : nat) (i : Z) : result nat :=
  if ((0 <=? i) && (i <? Z.of_nat extent))%Z then Ok (Z.to_nat i)
  else if ((- Z.of_nat extent <=? i) && (i <? 0))%Z
       then Ok (Z.to_nat (i + Z.of_nat extent))
       else Raise IndexError.

(** [np.clip(x, lo, hi)] is [minimum(maximum(x, lo), hi)]. *)
Definition np_clip (x lo hi : Z) : Z := Z.min (Z.max x lo) hi.

(** ** Element conversions *)

Definition wrap_int16 (z : Z) : Z := ((z + 32768) mod 65536 - 32768)%Z.

(** Conversion of a real to an integer type drops the fraction. *)
Definition Qtruncate (q : Q) : Z := Z.quot (Qnum q) (Zpos (Qden q)).

(** [astype(np.float32)] of an integer array; exact for every int16 value. *)
Definition astype_float32 (m : ndarray2 Z) : ndarray2 Q :=
  mk2 (rows m) (cols m) (map inject_Z (cells2 m)).

(** [astype(np.int16)]. *)
Definition astype_int16 (m : ndarray2 Q) : ndarray2 Z :=
  mk2 (rows m) (cols m) (map (fun q => wrap_int16 (Qtruncate q)) (cells2 m)).

(** ** image_processing_helpers.py *)

(** [np.zeros_like(m)]. *)
Definition zeros_like (m : ndarray2 Z) : ndarray2 Z :=
  mk2 (rows m) (cols m) (map (fun _ => 0%Z) (cells2 m)).

(** [np.where(m == class_value, m, 0)]. *)
Definition np_where_eq (m : ndarray2 Z) (class_value : Z) : ndarray2 Z :=
  mk2 (rows m) (cols m)
      (map (fun v => if (v =? class_value)%Z then v else 0%Z) (cells2 m)).

(** The "Ensure shapes match" step shared by [extract_slice_by_plane] and
    the sweep loop of [get_gif]. *)
Definition ensure_shapes_match {A} (slice_img : ndarray2 A) (slice_pred : ndarray2 Z)
  : result (ndarray2 Z) :=
  if negb (shape2_eqb (shape2 slice_pred) (shape2 slice_img))
  then
    let* r := cv2_resize_nearest 0%Q (astype_float32 slice_pred)
                (cols slice_img) (rows slice_img) in
    Ok (astype_int16 r)
  else Ok slice_pred.

(** The slices before the shape check. *)
Definition raw_slices (img : ndarray3 Q) (pred_vol : ndarray3 Z)
           (plane : string) (slice_idx : Z)
  : result (ndarray2 Q * ndarray2 Z) :=
  if (plane =? "Axial")%string then
    let max_idx := Z.of_nat (dim2 img) in
    let slice_idx := np_clip slice_idx 0 (max_idx - 1) in
    let* i := py_index (dim2 img) slice_idx in
    let slice_img := take_axis2 0%Q img i in
    let pred_slice_idx := np_clip slice_idx 0 (Z.of_nat (dim2 pred_vol) - 1) in
    let* p := py_index (dim2 pred_vol) pred_slice_idx in
    Ok (slice_img, take_axis2 0%Z pred_vol p)
  else if (plane =? "Sagittal")%string then
    let max_idx := Z.of_nat (dim0 img) in
    let slice_idx := np_clip slice_idx 0 (max_idx - 1) in
    let* i := py_index (dim0 img) slice_idx in
    let slice_img := rot90 0%Q (take_axis0 0%Q img i) in
    let pred_slice_idx := np_clip slice_idx 0 (Z.of_nat (dim0 pred_vol) - 1) in
    let* p := py_index (dim0 pred_vol) pred_slice_idx in
    Ok (slice_img, rot90 0%Z (take_axis0 0%Z pred_vol p))
  else
    let max_idx := Z.of_nat (dim1 img) in
    let slice_idx := np_clip slice_idx 0 (max_idx - 1) in
    let* i := py_index (dim1 img) slice_idx in
    let slice_img := rot90 0%Q (take_axis1 0%Q img i) in
    let pred_slice_idx := np_clip slice_idx 0 (Z.of_nat (dim1 pred_vol) - 1) in
    let* p := py_index (dim1 pred_vol) pred_slice_idx in
    Ok (slice_img, rot90 0%Z (take_axis1 0%Z pred_vol p)).

Definition extract_slice_by_plane (img : ndarray3 Q) (pred_vol : ndarray3 Z)
           (plane : string) (slice_idx : Z)
  : result (ndarray2 Q * ndarray2 Z) :=
  let* (slice_img, slice_pred) := raw_slices img pred_vol plane slice_idx in
  let* slice_pred := ensure_shapes_match slice_img slice_pred in
  Ok (slice_img, slice_pred).

(** *** [int(selected_class)]

    The literal may be surrounded by white space, may carry one sign, and may
    separate digits by single underscores. White space and digits outside
    ASCII are not covered. *)
Definition is_space (c : ascii) : bool :=
  let n := nat_of_ascii c in
  (n =? 32) || ((9 <=? n) && (n <=? 13)).

Definition digit_of (c : ascii) : option Z :=
  let n := nat_of_ascii c in
  if (48 <=? n) && (n <=? 57) then Some (Z.of_nat (n - 48)) else None.

Fixpoint lstrip (s : string) : string :=
  match s with
  | String c rest => if is_space c then lstrip rest else s
  | EmptyString => s
  end.

Fixpoint string_rev_onto (s acc : string) : string :=
  match s with
  | String c rest => string_rev_onto rest (String c acc)
  | EmptyString => acc
  end.

Definition strip (s : string) : string :=
  let r := lstrip (string_rev_onto (lstrip s) EmptyString) in
  string_rev_onto r EmptyString.

Fixpoint parse_digits (acc : Z) (after_digit : bool) (s : string) : option Z :=
  match s with
  | EmptyString => if after_digit then Some acc else None
  | String c rest =>
      match digit_of c with
      | Some d => parse_digits (acc * 10 + d)%Z true rest
      | None =>
          if (Ascii.eqb c "_"%char) && after_digit
          then parse_digits acc false rest
          else None
      end
  end.

Definition py_int (s : string) : result Z :=
  let body := strip s in
  let parsed :=
    match body with
    | String "-"%char rest => option_map Z.opp (parse_digits 0 false rest)
    | String "+"%char rest => parse_digits 0 false rest
    | _ => parse_digits 0 false body
    end in
  match parsed with
  | Some z => Ok z
  | None => Raise (ValueError "invalid literal for int() with base 10")
  end.

Definition filter_prediction_by_class (pred_slice : ndarray2 Z) (selected_class : string)
  : result (ndarray2 Z) :=
  if (selected_class =? "All")%string then Ok pred_slice
  else if (selected_class =? "None")%string then Ok (zeros_like pred_slice)
  else
    let* class_value := py_int selected_class in
    Ok (np_where_eq pred_slice class_value).

(** The per-plane slicer of the sweep: the extent of the sliced axis and the
    function from a position to the two slices. *)
Definition create_slicer_function (img : ndarray3 Q) (pred_vol : ndarray3 Z)
           (plane : string)
  : nat * (nat -> result (ndarray2 Q * ndarray2 Z)) :=
  if (plane =? "Axial")%string then
    (dim2 img,
     fun i =>
       let* a := py_index (dim2 img) (Z.of_nat i) in
       let* b := py_index (dim2 pred_vol) (Z.of_nat i) in
       Ok (take_axis2 0%Q img a, take_axis2 0%Z pred_vol b))
  else if (plane =? "Sagittal")%string then
    (dim0 img,
     fun i =>
       let* a := py_index (dim0 img) (Z.of_nat i) in
       let* b := py_index (dim0 pred_vol) (Z.of_nat i) in
       Ok (rot90 0%Q (take_axis0 0%Q img a), rot90 0%Z (take_axis0 0%Z pred_vol b)))
  else
    (dim1 img,
     fun i =>
       let* a := py_index (dim1 img) (Z.of_nat i) in
       let* b := py_index (dim1 pred_vol) (Z.of_nat i) in
       Ok (rot90 0%Q (take_axis1 0%Q img a), rot90 0%Z (take_axis1 0%Z pred_vol b))).

(** [(stride, fps)] of the sweep. *)
Definition get_gif_animation_params (plane : string) (num_slices : nat) : nat * nat :=
  if (plane =? "Axial")%string
  then (Nat.max 1 (num_slices / 60), 15)
  else (Nat.max 1 (num_slices / 100), 13).

(** ** metrics_helpers.py *)

(** [np.sum] of a boolean mask. *)
Fixpoint np_sum_mask (mask : list bool) : Z :=
  match mask with
  | [] => 0%Z
  | b :: rest => ((if b then 1 else 0) + np_sum_mask rest)%Z
  end.

(** Rounding to the nearest integer, ties to the even neighbour. *)
Definition round_half_even (q : Q) : Z :=
  let f := Qfloor q in
  match (q - inject_Z f ?= 1 # 2)%Q with
  | Lt => f
  | Gt => (f + 1)%Z
  | Eq => if Z.even f then f else (f + 1)%Z
  end.

(** [round(x, 2)]. *)
Definition py_round2 (x : Q) : Q :=
  (inject_Z (round_half_even (x * 100)) / 100)%Q.

Record metrics : Type := mk_metrics {
  voxel_count : Z;
  volume_mm3 : Q;
  volume_cm3 : Q;
  percentage : Q
}.

Definition size3 {A} (v : ndarray3 A) : Z :=
  Z.of_nat (dim0 v * dim1 v * dim2 v).

Definition class_metrics_of (pred_vol : ndarray3 Z) (voxel_volume_mm3 : Q)
           (class_id : Z) : metrics :=
  let total_voxels := size3 pred_vol in
  let class_mask := map (fun v => (v =? class_id)%Z) (cells3 pred_vol) in
  let class_voxels := np_sum_mask class_mask in
  let class_volume_mm3 := (inject_Z class_voxels * voxel_volume_mm3)%Q in
  let class_percentage :=
    if (total_voxels >? 0)%Z
    then (inject_Z class_voxels / inject_Z total_voxels * 100)%Q
    else 0%Q in
  {| voxel_count := class_voxels;
     volume_mm3 := py_round2 class_volume_mm3;
     volume_cm3 := py_round2 (class_volume_mm3 / 1000);
     percentage := py_round2 class_percentage |}.

(** The dictionary [{1: ..., 2: ..., 3: ...}], in insertion order. *)
Definition calculate_class_metrics (pred_vol : ndarray3 Z) (voxel_volume_mm3 : Q)
  : list (Z * metrics) :=
  map (fun class_id => (class_id, class_metrics_of pred_vol voxel_volume_mm3 class_id))
      [1; 2; 3]%Z.

Definition calculate_total_tumor_metrics (pred_vol : ndarray3 Z) (voxel_volume_mm3 : Q)
  : metrics :=
  let total_voxels := size3 pred_vol in
  let tumor_mask := map (fun v => (v >? 0)%Z) (cells3 pred_vol) in
  let total_tumor_voxels := np_sum_mask tumor_mask in
  let total_tumor_volume_mm3 := (inject_Z total_tumor_voxels * voxel_volume_mm3)%Q in
  let total_tumor_percentage :=
    if (total_voxels >? 0)%Z
    then (inject_Z total_tumor_voxels / inject_Z total_voxels * 100)%Q
    else 0%Q in
  {| voxel_count := total_tumor_voxels;
     volume_mm3 := py_round2 total_tumor_volume_mm3;
     volume_cm3 := py_round2 (total_tumor_volume_mm3 / 1000);
     percentage := py_round2 total_tumor_percentage |}.

(** [dict.get]. *)
Fixpoint dict_get {V} (d : list (Z * V)) (k : Z) : option V :=
  match d with
  | [] => None
  | (k', v) :: rest => if (k' =? k)%Z then Some v else dict_get rest k
  end.

Definition get_selected_class_metrics (class_metrics : list (Z * metrics))
           (selected_class : string) : option metrics :=
  if (selected_class =? "All")%string || (selected_class =? "None")%string
     || (selected_class =? "0")%string
  then None
  else
    match py_int selected_class with
    | Ok class_id => dict_get class_metrics class_id
    | Raise _ => None
    end.

(** ** app.py: world to voxel coordinates *)

Definition DEFAULT_WORLD_COORDS : Q * Q * Q := ((-92)%Q, 114%Q, 61%Q).

(** The [coords] dictionary with its keys "x", "y" and "z"; a key may be
    absent. *)
Record coords : Type := mk_coords {
  coord_x : option Q;
  coord_y : option Q;
  coord_z : option Q
}.

Definition matrix : Type := list (list Q).

Definition mat_get (m : matrix) (i j : nat) : Q := nth j (nth i m []) 0%Q.

Fixpoint drop_nth {A} (n : nat) (l : list A) : list A :=
  match n, l with
  | _, [] => []
  | O, _ :: rest => rest
  | S n', x :: rest => x :: drop_nth n' rest
  end.

(** The matrix without row [i] and column [j]. *)
Definition minor (m : matrix) (i j : nat) : matrix :=
  map (drop_nth j) (drop_nth i m).

Definition det3 (m : matrix) : Q :=
  (mat_get m 0 0 * (mat_get m 1 1 * mat_get m 2 2 - mat_get m 1 2 * mat_get m 2 1)
   - mat_get m 0 1 * (mat_get m 1 0 * mat_get m 2 2 - mat_get m 1 2 * mat_get m 2 0)
   + mat_get m 0 2 * (mat_get m 1 0 * mat_get m 2 1 - mat_get m 1 1 * mat_get m 2 0))%Q.

Definition sign (n : nat) : Q := if Nat.even n then 1%Q else (-1)%Q.

Definition cofactor (m : matrix) (i j : nat) : Q :=
  (sign (i + j) * det3 (minor m i j))%Q.

Definition det4 (m : matrix) : Q :=
  (mat_get m 0 0 * cofactor m 0 0 + mat_get m 0 1 * cofactor m 0 1
   + mat_get m 0 2 * cofactor m 0 2 + mat_get m 0 3 * cofactor m 0 3)%Q.

Definition is_4x4 (m : matrix) : bool :=
  (List.length m =? 4) && forallb (fun r => List.length r =? 4) m.

(** [np.linalg.inv] of a 4 x 4 matrix, as the adjugate over the determinant;
    a singular matrix raises [LinAlgError]. *)
Definition linalg_inv4 (m : matrix) : result matrix :=
  if Qeq_bool (det4 m) 0 then Raise LinAlgError
  else Ok (map (fun i => map (fun j => (cofactor m j i / det4 m)%Q) (seq 0 4)) (seq 0 4)).

Definition dot_row (r : list Q) (p : list Q) : Q :=
  fold_right Qplus 0%Q (map (fun xy => (fst xy * snd xy)%Q) (combine r p)).

Definition mat_vec (m : matrix) (p : list Q) : list Q :=
  map (fun r => dot_row r p) m.

Definition dict_item (v : option Q) : result Q :=
  match v with
  | Some q => Ok q
  | None => Raise KeyError
  end.

Definition dict_get_default (v : option Q) (d : Q) : Q :=
  match v with
  | Some q => q
  | None => d
  end.

(** The body of the [try] block. An affine that is not 4 x 4 makes either
    [inv] or [dot] raise; the handler does not tell the two apart. *)
Definition world_to_voxel_try (affine : matrix) (c : coords) : result (list Z) :=
  let* x := dict_item (coord_x c) in
  let* y := dict_item (coord_y c) in
  let* z := dict_item (coord_z c) in
  let point := [x; y; z; 1%Q] in
  if negb (is_4x4 affine) then Raise LinAlgError
  else
    let* inv := linalg_inv4 affine in
    let voxel := firstn 3 (mat_vec inv point) in
    Ok (map round_half_even voxel).

Definition world_to_voxel (affine : matrix) (c : coords) : list Z :=
  match world_to_voxel_try affine c with
  | Ok v => v
  | Raise _ =>
      match DEFAULT_WORLD_COORDS with
      | (dx, dy, dz) =>
          map Qtruncate [dict_get_default (coord_x c) dx;
                         dict_get_default (coord_y c) dy;
                         dict_get_default (coord_z c) dz]
      end
  end.

(** ** The session dictionary and the prediction cache *)

(** An array of any rank, as the model hands it over. *)
Record ndarray (A : Type) : Type := mk_nd {
  shape : list nat;
  buffer : list A
}.
Arguments mk_nd {A}.
Arguments shape {A}.
Arguments buffer {A}.

Record ndarray4 (A : Type) : Type := mk4 {
  slices4 : nat;
  rows4 : nat;
  cols4 : nat;
  chans4 : nat;
  cells4 : list A
}.
Arguments mk4 {A}.
Arguments slices4 {A}.
Arguments rows4 {A}.
Arguments cols4 {A}.
Arguments chans4 {A}.
Arguments cells4 {A}.

Definition get4 (a : ndarray4 Q) (s i j c : nat) : Q :=
  nth (((s * rows4 a + i) * cols4 a + j) * chans4 a + c) (cells4 a) 0%Q.

(** [SESSION_STATE]: one field per key in use. [dict.get] reads an absent
    "pred_seg" or "current_patient" as [None] and an absent flag as [False]. *)
Record session : Type := mk_session {
  pred_seg : option (ndarray Q);
  patient_has_changed : bool;
  pred_can_be_displayed : bool;
  pred_gen_for_this_patient : bool;
  current_patient : option string
}.

(** The process state: the session dictionary and the number of calls of
    [predict_segmentation] made so far. *)
Record world : Type := mk_world {
  SESSION_STATE : session;
  model_calls : nat
}.

Definition patient_has_changed_update_token (w : world) : world :=
  let s := SESSION_STATE w in
  {| SESSION_STATE :=
       {| pred_seg := pred_seg s;
          patient_has_changed := true;
          pred_can_be_displayed := false;
          pred_gen_for_this_patient := false;
          current_patient := current_patient s |};
     model_calls := model_calls w |}.

Definition set_current_patient (w : world) (patient_path : string) : world :=
  let s := SESSION_STATE w in
  {| SESSION_STATE :=
       {| pred_seg := pred_seg s;
          patient_has_changed := patient_has_changed s;
          pred_can_be_displayed := pred_can_be_displayed s;
          pred_gen_for_this_patient := pred_gen_for_this_patient s;
          current_patient := Some patient_path |};
     model_calls := model_calls w |}.

Definition store_prediction (w : world) (predicted_seg : ndarray Q) : world :=
  let s := SESSION_STATE w in
  {| SESSION_STATE :=
       {| pred_seg := Some predicted_seg;
          patient_has_changed := patient_has_changed s;
          pred_can_be_displayed := true;
          pred_gen_for_this_patient := true;
          current_patient := current_patient s |};
     model_calls := model_calls w |}.

Definition count_model_call (w : world) : world :=
  {| SESSION_STATE := SESSION_STATE w; model_calls := S (model_calls w) |}.

Definition option_string_eqb (a : option string) (b : string) : bool :=
  match a with
  | Some s => (s =? b)%string
  | None => false
  end.

(** [np.argmax] of one channel vector: the first position of the maximum. *)
Fixpoint argmax_from (best : Q) (best_i i : nat) (l : list Q) : nat :=
  match l with
  | [] => best_i
  | x :: rest =>
      if Qle_bool x best
      then argmax_from best best_i (S i) rest
      else argmax_from x i (S i) rest
  end.

Definition np_argmax (l : list Q) : nat :=
  match l with
  | [] => 0
  | x :: rest => argmax_from x 0 1 rest
  end.

(** [np.argmax(a, axis=3).astype(np.int16)]. *)
Definition argmax_axis3 (a : ndarray4 Q) : result (ndarray3 Z) :=
  if chans4 a =? 0
  then Raise (ValueError "attempt to get argmax of an empty sequence")
  else Ok (mk3 (slices4 a) (rows4 a) (cols4 a)
             (tabulate3 (slices4 a) (rows4 a) (cols4 a) (fun s i j =>
                wrap_int16 (Z.of_nat
                  (np_argmax (map (fun c => get4 a s i j c) (seq 0 (chans4 a)))))))).

(** [np.moveaxis(a, 0, 2)]: [out[i, j, k] = a[k, i, j]]. *)
Definition moveaxis_0_2 (a : ndarray3 Z) : ndarray3 Z :=
  mk3 (dim1 a) (dim2 a) (dim0 a)
      (tabulate3 (dim1 a) (dim2 a) (dim0 a) (fun i j k => get3 0%Z a k i j)).

Definition np_zeros3 (s : nat * nat * nat) : ndarray3 Z :=
  match s with
  | (a, b, c) => mk3 a b c (tabulate3 a b c (fun _ _ _ => 0%Z))
  end.

(** [v[:, :, z] = layer]. *)
Definition set_axis2 (v : ndarray3 Z) (z : nat) (layer : ndarray2 Z) : ndarray3 Z :=
  mk3 (dim0 v) (dim1 v) (dim2 v)
      (tabulate3 (dim0 v) (dim1 v) (dim2 v) (fun i j k =>
         if k =? z then get2 0%Z layer i j else get3 0%Z v i j k)).

(** The [for z in range(limit)] loop of [get_prediction_volume]. *)
Fixpoint resize_layers (pred_vol : ndarray3 Z) (reference_shape : nat * nat * nat)
         (zs : list nat) (resized_pred : ndarray3 Z) : result (ndarray3 Z) :=
  match zs with
  | [] => Ok resized_pred
  | z :: rest =>
      let* layer :=
        cv2_resize_nearest 0%Q (astype_float32 (take_axis2 0%Z pred_vol z))
          (snd (fst reference_shape)) (fst (fst reference_shape)) in
      resize_layers pred_vol reference_shape rest
        (set_axis2 resized_pred z (astype_int16 layer))
  end.

Section Prediction.
(** The inference routine of [predict_seg.py]; it reads the patient's
    files and runs the network. Its first argument is the number of calls
    made before, so two calls need not agree. *)
Variable predict_segmentation : nat -> string -> result (ndarray Q).

(** [utils/img_processing.py] is not part of the sources. Its
    [resize_predicted_seg] brings the class-probability maps from the
    inference grid to the native grid and returns a 4-axis array. *)
Variable resize_predicted_seg : ndarray Q -> result (ndarray4 Q).

(** [os.path.join(patient_path, basename(normpath(patient_path)))]. *)
Variable patient_root_of : string -> string.

Definition predict_btn_click (w : world) (patient_path : string)
  : world * result (option (ndarray Q)) :=
  if negb (pred_gen_for_this_patient (SESSION_STATE w)) then
    match predict_segmentation (model_calls w) patient_path with
    | Raise e => (count_model_call w, Raise e)
    | Ok predicted_seg =>
        let w' := store_prediction (count_model_call w) predicted_seg in
        (w', Ok (pred_seg (SESSION_STATE w')))
    end
  else (w, Ok (pred_seg (SESSION_STATE w))).

(** From the validated raw prediction to the canonical volume. *)
Definition normalize_prediction (pred_raw : ndarray Q)
           (reference_shape : nat * nat * nat) : result (ndarray3 Z) :=
  let* pred_resized := resize_predicted_seg pred_raw in
  let* pred_classes := argmax_axis3 pred_resized in
  let pred_vol := moveaxis_0_2 pred_classes in
  if negb (shape3_eqb (shape3 pred_vol) reference_shape) then
    let resized_pred := np_zeros3 reference_shape in
    let limit := Nat.min (dim2 pred_vol) (snd reference_shape) in
    resize_layers pred_vol reference_shape (seq 0 limit) resized_pred
  else Ok pred_vol.

Definition get_prediction_volume (w : world) (patient_path : string)
           (reference_shape : nat * nat * nat) : world * result (ndarray3 Z) :=
  let patient_root := patient_root_of patient_path in
  let w1 :=
    if negb (option_string_eqb (current_patient (SESSION_STATE w)) patient_path)
    then set_current_patient (patient_has_changed_update_token w) patient_path
    else w in
  match predict_btn_click w1 patient_root with
  | (w2, Raise e) => (w2, Raise e)
  | (w2, Ok None) => (w2, Raise (ValueError "Failed to generate prediction"))
  | (w2, Ok (Some pred_raw)) =>
      if negb (List.length (shape pred_raw) =? 4) || negb (nth 3 (shape pred_raw) 0 =? 4)
      then (w2, Raise (ValueError "Invalid prediction shape"))
      else (w2, normalize_prediction pred_raw reference_shape)
  end.

(** The first half of [get_prediction_volume]: the patient switch and the
    call of [predict_btn_click]. *)
Definition fetch_prediction (w : world) (patient_path : string)
  : world * result (option (ndarray Q)) :=
  predict_btn_click
    (if negb (option_string_eqb (current_patient (SESSION_STATE w)) patient_path)
     then set_current_patient (patient_has_changed_update_token w) patient_path
     else w)
    (patient_root_of patient_path).
End Prediction.

(** ** app.py: the sweep route [get_gif] *)

(** [range(0, stop, step)] for a positive step. *)
Definition py_range (stop step : nat) : list nat :=
  map (fun k => k * step) (seq 0 ((stop + step - 1) / step)).

Inductive response : Type :=
| JsonGif (gif : string)
| JsonError (status : nat) (error : string).

Definition no_frames_message (num_slices : nat) : string :=
  ("No frames generated. num_slices="
     ++ NilEmpty.string_of_uint (Nat.to_uint num_slices))%string.

Section Sweep.
(** One rendered frame: the overlay figure drawn on its canvas and resized
    to 256 x 256. Rendering and encoding are outside the model. *)
Variable frame : Type.
Variable render_frame : ndarray2 Q -> ndarray2 Z -> frame.
Variable encode_gif : list frame -> nat -> string.

(** The [for idx in idxs] loop; [frames] is the list built so far. *)
Fixpoint sweep_frames (slicer : nat -> result (ndarray2 Q * ndarray2 Z))
         (selected_class : string) (idxs : list nat) (frames : list frame)
  : result (list frame) :=
  match idxs with
  | [] => Ok frames
  | idx :: rest =>
      let* (slice_img, slice_pred) := slicer idx in
      let* slice_pred := ensure_shapes_match slice_img slice_pred in
      let* filtered_pred := filter_prediction_by_class slice_pred selected_class in
      sweep_frames slicer selected_class rest
        (frames ++ [render_frame slice_img filtered_pred])
  end.

(** [get_gif] once the image and the canonical prediction are at hand. *)
Definition gif_of_volumes (img : ndarray3 Q) (pred_vol : ndarray3 Z)
           (plane selected_class : string) : result response :=
  let '(num_slices, slicer) := create_slicer_function img pred_vol plane in
  let '(stride, fps) := get_gif_animation_params plane num_slices in
  let idxs := py_range num_slices stride in
  let* frames := sweep_frames slicer selected_class idxs [] in
  if List.length frames =? 0
  then Ok (JsonError 500 (no_frames_message num_slices))
  else Ok (JsonGif (encode_gif frames fps)).

Variable predict_segmentation : nat -> string -> result (ndarray Q).
Variable resize_predicted_seg : ndarray Q -> result (ndarray4 Q).
Variable patient_root_of : string -> string.

(** [nib.load(get_modality_file(patient_path, modality)).get_fdata()]. *)
Variable load_volume : string -> string -> result (ndarray3 Q).

Definition get_gif (w : world) (patient_path modality plane selected_class : string)
  : world * result response :=
  match load_volume patient_path modality with
  | Raise (FileNotFoundError msg) => (w, Ok (JsonError 404 msg))
  | Raise e => (w, Raise e)
  | Ok img =>
      match get_prediction_volume predict_segmentation resize_predicted_seg
              patient_root_of w patient_path (shape3 img) with
      | (w', Raise (ValueError msg)) => (w', Ok (JsonError 500 msg))
      | (w', Raise e) => (w', Raise e)
      | (w', Ok pred_vol) =>
          (w', gif_of_volumes img pred_vol plane selected_class)
      end
  end.
End Sweep.

(** ** Vocabulary of the properties *)

(** No axis of the volume is empty. *)
Definition nonempty3 {A} (v : ndarray3 A) : Prop :=
  0 < dim0 v /\ 0 < dim1 v /\ 0 < dim2 v.

(** The extent of the axis a plane slices, and the slice at a position. *)
Definition plane_extent {A} (v : ndarray3 A) (plane : string) : nat :=
  if (plane =? "Axial")%string then dim2 v
  else if (plane =? "Sagittal")%string then dim0 v
  else dim1 v.

Definition plane_slice {A} (dflt : A) (v : ndarray3 A) (plane : string) (i : nat)
  : ndarray2 A :=
  if (plane =? "Axial")%string then take_axis2 dflt v i
  else if (plane =? "Sagittal")%string then rot90 dflt (take_axis0 dflt v i)
  else rot90 dflt (take_axis1 dflt v i).

(** The slicer of [create_slicer_function], written with [plane_extent] and
    [plane_slice]. *)
Definition slicer_of (img : ndarray3 Q) (pred_vol : ndarray3 Z) (plane : string)
  : nat -> result (ndarray2 Q * ndarray2 Z) :=
  fun i =>
    let* a := py_index (plane_extent img plane) (Z.of_nat i) in
    let* b := py_index (plane_extent pred_vol plane) (Z.of_nat i) in
    Ok (plane_slice 0%Q img plane a, plane_slice 0%Z pred_vol plane b).

(** The class filters [filter_prediction_by_class] accepts. *)
Definition valid_class_filter (selected_class : string) : bool :=
  (selected_class =? "All")%string || (selected_class =? "None")%string
  || is_ok (py_int selected_class).

(** The class labels: background and the three tumour classes. *)
Definition is_label (v : Z) : Prop := (0 <= v <= 3)%Z.

(** The shape test of [get_prediction_volume]:
    [len(pred_raw.shape) != 4 or pred_raw.shape[3] != 4]. *)
Definition invalid_prediction_shape (pred_raw : ndarray Q) : bool :=
  negb (List.length (shape pred_raw) =? 4) || negb (nth 3 (shape pred_raw) 0 =? 4).

(** What the properties ask of the helper [resize_predicted_seg]: it keeps
    the number of channels. *)
Definition keeps_channels (resize : ndarray Q -> result (ndarray4 Q)) : Prop :=
  forall r a, resize r = Ok a -> chans4 a = nth 3 (shape r) 0.

(** The helper returns on a non-empty 4-channel prediction, and its layers
    are not empty. *)
Definition resizes_nonempty (resize : ndarray Q -> result (ndarray4 Q)) : Prop :=
  forall r n h w,
    shape r = [n; h; w; 4] -> 0 < n -> 0 < h -> 0 < w ->
    exists a, resize r = Ok a /\ 0 < rows4 a /\ 0 < cols4 a.




(** ** Sample inputs *)

(** A 2 x 3 x 2 image and a 1 x 2 x 4 label volume. *)
Definition sample_image : ndarray3 Q :=
  mk3 2 3 2 (map inject_Z [1; 2; 3; 4; 5; 6; 7; 8; 9; 10; 11; 12]%Z).

Definition sample_labels : ndarray3 Z :=
  mk3 1 2 4 [0; 1; 2; 3; 0; 1; 2; 3]%Z.

Definition empty_depth_image : ndarray3 Q := mk3 2 2 0 [].


(** An invertible affine (two axes flipped, one offset) and a singular one. *)
Definition sample_affine : matrix :=
  [[-1; 0; 0; 0]; [0; -1; 0; 239]; [0; 0; 1; 0]; [0; 0; 0; 1]]%Q.


(** A stand-in for the helper, used to run the pipeline on concrete inputs:
    every (slice, channel) layer is resampled to [H] x [W] by nearest
    neighbour. *)
Definition nearest_resize (H W : nat) (r : ndarray Q) : result (ndarray4 Q) :=
  match shape r with
  | [n; h; w; c] =>
      if (h =? 0) || (w =? 0) || (H =? 0) || (W =? 0) then Raise Cv2Error
      else Ok (mk4 n H W c
                 (flat_map (fun s =>
                    tabulate3 H W c (fun i j k =>
                      nth (((s * h + nearest_position i h H) * w
                            + nearest_position j w W) * c + k)
                          (buffer r) 0%Q))
                    (seq 0 n)))
  | _ => Raise (ValueError "expected four axes")
  end.

(** A one-voxel raw prediction whose most probable class is 1, a model that
    always returns it, and the pipeline built on them. *)
Definition sample_raw : ndarray Q :=
  mk_nd [1; 1; 1; 4] [1 # 10; 7 # 10; 1 # 10; 1 # 10]%Q.

Definition sample_model (calls : nat) (patient_root : string) : result (ndarray Q) :=
  Ok sample_raw.

Definition sample_root (patient_path : string) : string :=
  (patient_path ++ "/" ++ patient_path)%string.

(** The session right after [init_session_state_variables]. *)
Definition fresh_world : world :=
  mk_world (mk_session None true false false None) 0.

Definition sample_pipeline :=
  get_prediction_volume sample_model (nearest_resize 2 2) sample_root.

Definition sample_canonical : ndarray3 Z := mk3 2 2 1 [1; 1; 1; 1]%Z.

Definition sample_cached_world : world :=
  mk_world (mk_session (Some sample_raw) true true true (Some "case_001"%string)) 1.

(** ** three_views_helpers.py *)

(** [a[i]] for a one-dimensional integer array and a position [i >= 0]. *)
Definition array_item (a : list Z) (i : nat) : result Z :=
  match nth_error a i with
  | Some v => Ok v
  | None => Raise IndexError
  end.

(** The six slices, in the order of the returned tuple: sagittal image and
    prediction, coronal image and prediction, axial image and prediction. *)
Record three_views : Type := mk_views {
  sagittal_img : ndarray2 Q;
  sagittal_pred : ndarray2 Z;
  coronal_img : ndarray2 Q;
  coronal_pred : ndarray2 Z;
  axial_img : ndarray2 Q;
  axial_pred : ndarray2 Z
}.

Definition extract_three_view_slices (img : ndarray3 Q) (pred_vol : ndarray3 Z)
           (voxel_coords : list Z) : result three_views :=
  let* c0 := array_item voxel_coords 0 in
  let x_idx := np_clip c0 0 (Z.of_nat (dim0 img) - 1) in
  let* c1 := array_item voxel_coords 1 in
  let y_idx := np_clip c1 0 (Z.of_nat (dim1 img) - 1) in
  let* c2 := array_item voxel_coords 2 in
  let z_idx := np_clip c2 0 (Z.of_nat (dim2 img) - 1) in
  let* xi := py_index (dim0 img) x_idx in
  let* xp := py_index (dim0 pred_vol) x_idx in
  let* yi := py_index (dim1 img) y_idx in
  let* yp := py_index (dim1 pred_vol) y_idx in
  let* zi := py_index (dim2 img) z_idx in
  let* zp := py_index (dim2 pred_vol) z_idx in
  Ok {| sagittal_img := rot90 0%Q (take_axis0 0%Q img xi);
        sagittal_pred := rot90 0%Z (take_axis0 0%Z pred_vol xp);
        coronal_img := rot90 0%Q (take_axis1 0%Q img yi);
        coronal_pred := rot90 0%Z (take_axis1 0%Z pred_vol yp);
        axial_img := take_axis2 0%Q img zi;
        axial_pred := take_axis2 0%Z pred_vol zp |}.

(** The (row, column) of the crosshair in the sagittal, coronal and axial
    view. *)
Definition calculate_crosshair_positions
           (sagittal_shape coronal_shape axial_shape : nat * nat)
           (x_idx y_idx z_idx : Z) : (Z * Z) * (Z * Z) * (Z * Z) :=
  let sag_cross :=
    (np_clip (Z.of_nat (fst sagittal_shape) - z_idx - 1) 0
             (Z.of_nat (fst sagittal_shape) - 1),
     np_clip y_idx 0 (Z.of_nat (snd sagittal_shape) - 1)) in
  let cor_cross :=
    (np_clip (Z.of_nat (fst coronal_shape) - z_idx - 1) 0
             (Z.of_nat (fst coronal_shape) - 1),
     np_clip x_idx 0 (Z.of_nat (snd coronal_shape) - 1)) in
  let axial_cross :=
    (np_clip y_idx 0 (Z.of_nat (fst axial_shape) - 1),
     np_clip x_idx 0 (Z.of_nat (snd axial_shape) - 1)) in
  (sag_cross, cor_cross, axial_cross).

(** ** Overlay decisions of the two renderers *)

(** [np.all(slice_pred == 0)]. *)
Definition np_all_zero (slice_pred : ndarray2 Z) : bool :=
  forallb (fun v => (v =? 0)%Z) (cells2 slice_pred).

(** [render_slice_with_overlay] draws the mask layer under this condition:
    [if not np.all(slice_pred == 0)]. *)
Definition slice_overlay_drawn (slice_pred : ndarray2 Z) : bool :=
  negb (np_all_zero slice_pred).

(** [np.ma.masked_where(pred_slice == 0, pred_slice).count()]: the number of
    cells that are not masked. *)
Definition masked_count (pred_slice : ndarray2 Z) : nat :=
  List.length (filter (fun v => negb (v =? 0)%Z) (cells2 pred_slice)).

(** [render_three_views] draws the mask layer under this condition:
    [if mask_show.count() > 0]. *)
Definition three_views_overlay_drawn (pred_slice : ndarray2 Z) : bool :=
  0 <? masked_count pred_slice.

(** ** [normalize_image_slice] *)

Definition wrap_uint8 (z : Z) : Z := (z mod 256)%Z.

(** [slice_data.min()] and [slice_data.max()] of a non-empty buffer. *)
Definition np_min (x : Q) (rest : list Q) : Q := fold_left Qmin rest x.
Definition np_max (x : Q) (rest : list Q) : Q := fold_left Qmax rest x.

(** The min-max stretch to 0..255 and the cast to uint8. [np.nan_to_num]
    leaves every real value as it is. The reductions reject an empty
    array. *)
Definition normalize_image_slice (slice_data : ndarray2 Q) : result (ndarray2 Z) :=
  match cells2 slice_data with
  | [] => Raise (ValueError "zero-size array to reduction operation minimum which has no identity")
  | x :: rest =>
      let lo := np_min x rest in
      let hi := np_max x rest in
      Ok (mk2 (rows slice_data) (cols slice_data)
            (map (fun v =>
                    wrap_uint8
                      (Qtruncate ((v - lo) / (hi - lo + (1 # 100000000)) * 255)%Q))
                 (cells2 slice_data)))
  end.

(** ** [get_analysis]: voxel spacing from the affine *)

(** [m[:3, :3]] and [np.diag] of a two-dimensional array. *)
Definition block3 (m : matrix) : matrix := map (firstn 3) (firstn 3 m).

Definition np_diag (m : matrix) : list Q :=
  map (fun i => mat_get m i i)
      (seq 0 (Nat.min (List.length m) (List.length (hd [] m)))).

(** [np.abs(np.diag(affine[:3, :3]))] and its [np.prod]. *)
Definition voxel_spacing (affine : matrix) : list Q :=
  map Qabs (np_diag (block3 affine)).

Definition np_prod (l : list Q) : Q := fold_right Qmult 1%Q l.

Definition voxel_volume_of (affine : matrix) : Q := np_prod (voxel_spacing affine).

(** ** app.py: the routes [get_slice] and [get_three_views] *)

Inductive image_response : Type :=
| JsonImage (image : string)
| JsonImageError (status : nat) (error : string).


Section Routes.
(** Drawing and encoding are outside the model. A figure is made from the
    grey image and, when the renderer decides to draw it, the mask layer; the
    three-view figure from one such pair per view with its title, crosshair
    and label. *)
Variable figure : Type.
Variable draw_slice : ndarray2 Z -> option (ndarray2 Z) -> figure.
Variable draw_views
  : list (string * ndarray2 Z * option (ndarray2 Z) * (Z * Z) * string) -> figure.
Variable fig_to_base64 : figure -> string.

(** [f"{v:.0f}"]. *)
Variable format_0f : Q -> string.

Definition render_slice_with_overlay (slice_img : ndarray2 Q) (slice_pred : ndarray2 Z)
  : result figure :=
  let* slice_img_normalized := normalize_image_slice slice_img in
  Ok (draw_slice slice_img_normalized
        (if slice_overlay_drawn slice_pred then Some slice_pred else None)).


Variable predict_segmentation : nat -> string -> result (ndarray Q).
Variable resize_predicted_seg : ndarray Q -> result (ndarray4 Q).
Variable patient_root_of : string -> string.

(** [nib.load(get_modality_file(patient_path, modality)).get_fdata()]. *)
Variable load_volume : string -> string -> result (ndarray3 Q).

(** [nib.load(get_modality_file(patient_path, "FLAIR"))]: the data and the
    affine. *)
Variable load_flair : string -> result (ndarray3 Q * matrix).

(** [if not patient_path]: the key is absent or the text is empty. *)
Definition patient_path_missing (patient_path : option string) : bool :=
  match patient_path with
  | None => true
  | Some p => (String.length p =? 0)
  end.

(** [get_slice]; [slice_idx] is the value of [int(data.get("slice", 80))]. *)
Definition get_slice (w : world) (patient_path : option string)
           (modality plane selected_class : string) (slice_idx : Z)
  : world * result image_response :=
  match patient_path with
  | None => (w, Ok (JsonImageError 400 "patient_path missing"))
  | Some p =>
      if patient_path_missing patient_path
      then (w, Ok (JsonImageError 400 "patient_path missing"))
      else
        match load_volume p modality with
        | Raise (FileNotFoundError msg) => (w, Ok (JsonImageError 404 msg))
        | Raise e => (w, Raise e)
        | Ok img =>
            match get_prediction_volume predict_segmentation resize_predicted_seg
                    patient_root_of w p (shape3 img) with
            | (w', Raise (ValueError msg)) => (w', Ok (JsonImageError 500 msg))
            | (w', Raise e) => (w', Raise e)
            | (w', Ok pred_vol) =>
                (w',
                 let* (slice_img, slice_pred) :=
                   extract_slice_by_plane img pred_vol plane slice_idx in
                 let* filtered_pred :=
                   filter_prediction_by_class slice_pred selected_class in
                 let* fig := render_slice_with_overlay slice_img filtered_pred in
                 Ok (JsonImage (fig_to_base64 fig)))
            end
        end
  end.


End Routes.

(** The cache is coherent when a set generation flag means that the stored
    prediction is what an earlier call of the model returned for the current
    patient. *)
Definition cache_coherent (predict_segmentation : nat -> string -> result (ndarray Q))
           (patient_root_of : string -> string) (w : world) : Prop :=
  pred_gen_for_this_patient (SESSION_STATE w) = true ->
  exists p n raw,
    current_patient (SESSION_STATE w) = Some p
    /\ pred_seg (SESSION_STATE w) = Some raw
    /\ n < model_calls w
    /\ predict_segmentation n (patient_root_of p) = Ok raw.

(** ** app.py: the body of [get_analysis] *)

(** The keys of [get_class_explanations]. *)
Definition class_explanation_keys : list string := ["1"; "2"; "3"; "All"]%string.

(** [selected_class if selected_class in class_explanations else "All"]. *)
Definition explanation_key (selected_class : string) : string :=
  if existsb (String.eqb selected_class) class_explanation_keys
  then selected_class else "All"%string.

(** The JSON body of the answer; the explanation is given by its key in
    [get_class_explanations]. *)
Record analysis : Type := mk_analysis {
  total_tumor : metrics;
  by_class : list (Z * metrics);
  selected_class_metrics : option metrics;
  explanation : string;
  voxel_spacing_mm : list Q;
  image_dimensions : list nat
}.

Definition analysis_of_volumes (img : ndarray3 Q) (affine : matrix)
           (pred_vol : ndarray3 Z) (selected_class : string) : analysis :=
  let voxel_volume_mm3 := voxel_volume_of affine in
  let class_metrics := calculate_class_metrics pred_vol voxel_volume_mm3 in
  {| total_tumor := calculate_total_tumor_metrics pred_vol voxel_volume_mm3;
     by_class := class_metrics;
     selected_class_metrics := get_selected_class_metrics class_metrics selected_class;
     explanation := explanation_key selected_class;
     voxel_spacing_mm := voxel_spacing affine;
     image_dimensions := [dim0 img; dim1 img; dim2 img] |}.

(** ** eye_detection.py: the decision of [predict_dr_severity] *)

Definition DR_CLASSES : list string :=
  ["No_DR"; "Mild"; "Moderate"; "Severe"; "Proliferate_DR"]%string.

Definition SEVERITY_TO_RESULT : list (Z * string) :=
  [(0, "Normal"); (1, "Anomaly"); (2, "Anomaly"); (3, "Anomaly"); (4, "Anomaly")]%Z%string.

Definition CLASS_DISPLAY_NAMES : list (string * string) :=
  [("No_DR", "No DR"); ("Mild", "Mild"); ("Moderate", "Moderate");
   ("Severe", "Severe"); ("Proliferate_DR", "Proliferative DR")]%string.

(** [d.get(k, default)] for text keys. *)
Fixpoint str_dict_get (d : list (string * string)) (k default : string) : string :=
  match d with
  | [] => default
  | (k', v) :: rest => if (k' =? k)%string then v else str_dict_get rest k default
  end.

(** [l[i]] for a list or a one-dimensional array. *)
Definition list_item {A} (l : list A) (i : Z) : result A :=
  let* p := py_index (List.length l) i in
  match nth_error l p with
  | Some v => Ok v
  | None => Raise IndexError
  end.

(** What the [try] block may end in: its result, or the [RuntimeError] the
    handler raises for any exception, which quotes the cause. *)
Inductive attempt (A : Type) : Type :=
| Done (a : A)
| RuntimeError (cause : exn).
Arguments Done {A} a.
Arguments RuntimeError {A} cause.

(** The fields of the returned dictionary that are decided by the class
    probabilities. The heat map, drawn from the fixed image size and the
    severity, and the two texts are left out. *)
Record dr_report : Type := mk_dr_report {
  predicted_class : string;
  severity_level : Z;
  result_type : string;
  confidence : Q;
  model_precision : Q;
  all_predictions : list (string * Q)
}.

(** The body of the [try] block; [probabilities] is [predictions[0]]. *)
Definition predict_dr_severity_try (probabilities : list Q) : result dr_report :=
  let* predicted_idx :=
    match probabilities with
    | [] => Raise (ValueError "attempt to get argmax of an empty sequence")
    | _ => Ok (Z.of_nat (np_argmax probabilities))
    end in
  let predicted_idx := Z.max 0 (Z.min 4 predicted_idx) in
  let* confidence := list_item probabilities predicted_idx in
  let* predicted_class := list_item DR_CLASSES predicted_idx in
  let predicted_class_display :=
    str_dict_get CLASS_DISPLAY_NAMES predicted_class predicted_class in
  let result_type :=
    match dict_get SEVERITY_TO_RESULT predicted_idx with
    | Some r => r
    | None => "Normal"%string
    end in
  let model_precision := (confidence * 100)%Q in
  let all_predictions :=
    map (fun i =>
           let class_name := nth i DR_CLASSES EmptyString in
           let display_name := str_dict_get CLASS_DISPLAY_NAMES class_name class_name in
           (display_name,
            if i <? List.length probabilities
            then (nth i probabilities 0%Q * 100)%Q else 0%Q))
        (seq 0 5) in
  Ok {| predicted_class := predicted_class_display;
        severity_level := predicted_idx;
        result_type := result_type;
        confidence := (confidence * 100)%Q;
        model_precision := model_precision;
        all_predictions := all_predictions |}.

Definition predict_dr_severity (probabilities : list Q) : attempt dr_report :=
  match predict_dr_severity_try probabilities with
  | Ok r => Done r
  | Raise e => RuntimeError e
  end.

(** * Properties *)

(** ** Buffers built by tabulation *)

Lemma tabulate2_length {A} (f : nat -> nat -> A) (c r s : nat) :
  List.length (flat_map (fun i => map (f i) (seq 0 c)) (seq s r)) = r * c.
Proof.
  revert s. induction r as [|r IH]; intros s; simpl.
  - reflexivity.
  - rewrite length_app, length_map, length_seq, IH. reflexivity.
Qed.

Lemma length_tabulate2 {A} (r c : nat) (f : nat -> nat -> A) :
  List.length (tabulate2 r c f) = r * c.
Proof. apply tabulate2_length. Qed.

Lemma flat_map_length_const {A B} (g : A -> list B) (n : nat) (l : list A) :
  (forall x, List.length (g x) = n) -> List.length (flat_map g l) = List.length l * n.
Proof.
  intros H. induction l as [|x l IH]; simpl; [reflexivity|].
  now rewrite length_app, H, IH.
Qed.

Lemma length_tabulate3 {A} (a b c : nat) (f : nat -> nat -> nat -> A) :
  List.length (tabulate3 a b c f) = a * b * c.
Proof.
  unfold tabulate3.
  rewrite (flat_map_length_const _ (b * c)) by (intros; apply length_tabulate2).
  rewrite length_seq. lia.
Qed.

Lemma Forall_tabulate2 {A} (P : A -> Prop) (r c : nat) (f : nat -> nat -> A) :
  (forall i j, i < r -> j < c -> P (f i j)) -> Forall P (tabulate2 r c f).
Proof.
  intros H. unfold tabulate2. apply Forall_flat_map, Forall_forall.
  intros i Hi. apply in_seq in Hi. apply Forall_map, Forall_forall.
  intros j Hj. apply in_seq in Hj. apply H; lia.
Qed.

Lemma Forall_tabulate3 {A} (P : A -> Prop) (a b c : nat) (f : nat -> nat -> nat -> A) :
  (forall i j k, i < a -> j < b -> k < c -> P (f i j k)) -> Forall P (tabulate3 a b c f).
Proof.
  intros H. unfold tabulate3. apply Forall_flat_map, Forall_forall.
  intros i Hi. apply in_seq in Hi. apply Forall_tabulate2.
  intros j k Hj Hk. apply H; lia.
Qed.

Lemma nth_tabulate2_from {A} (d : A) (f : nat -> nat -> A) (c r s i j : nat) :
  i < r -> j < c ->
  nth (i * c + j) (flat_map (fun i => map (f i) (seq 0 c)) (seq s r)) d = f (s + i) j.
Proof.
  revert s i. induction r as [|r IH]; intros s i Hi Hj; [lia|].
  simpl. destruct i as [|i].
  - rewrite app_nth1 by (rewrite length_map, length_seq; simpl; lia).
    simpl. rewrite Nat.add_0_r.
    rewrite (nth_indep _ d (f s 0)) by (rewrite length_map, length_seq; lia).
    rewrite map_nth, seq_nth by lia. reflexivity.
  - rewrite app_nth2 by (rewrite length_map, length_seq; simpl; lia).
    rewrite length_map, length_seq.
    replace (S i * c + j - c) with (i * c + j) by (simpl; lia).
    rewrite IH by lia. f_equal. lia.
Qed.

Lemma nth_tabulate2 {A} (d : A) (r c : nat) (f : nat -> nat -> A) (i j : nat) :
  i < r -> j < c -> nth (i * c + j) (tabulate2 r c f) d = f i j.
Proof. intros Hi Hj. unfold tabulate2. now rewrite nth_tabulate2_from. Qed.

Lemma nth_map_default {A B} (f : A -> B) (l : list A) (n : nat) (dA : A) (dB : B) :
  f dA = dB -> nth n (map f l) dB = f (nth n l dA).
Proof. intros <-. apply map_nth. Qed.

Lemma Forall_nth_default {A} (P : A -> Prop) (l : list A) (d : A) (n : nat) :
  Forall P l -> P d -> P (nth n l d).
Proof.
  intros Hl Hd. destruct (Nat.lt_ge_cases n (List.length l)) as [Hlt|Hge].
  - rewrite Forall_forall in Hl. apply Hl, nth_In, Hlt.
  - now rewrite nth_overflow.
Qed.

(** ** Slicing *)

Lemma np_clip_range (x : Z) (n : nat) :
  0 < n ->
  (0 <= np_clip x 0 (Z.of_nat n - 1) < Z.of_nat n)%Z.
Proof. unfold np_clip. lia. Qed.

Lemma np_clip_in_range (x : Z) (n : nat) :
  (0 <= x < Z.of_nat n)%Z -> np_clip x 0 (Z.of_nat n - 1) = x.
Proof. unfold np_clip. lia. Qed.

Lemma py_index_in_range (n : nat) (i : Z) :
  (0 <= i < Z.of_nat n)%Z -> py_index n i = Ok (Z.to_nat i).
Proof.
  intros H. unfold py_index.
  destruct (Z.leb_spec 0 i); [|lia]. destruct (Z.ltb_spec i (Z.of_nat n)); [|lia].
  reflexivity.
Qed.

Lemma py_index_clip (n : nat) (x : Z) :
  0 < n ->
  py_index n (np_clip x 0 (Z.of_nat n - 1))
  = Ok (Z.to_nat (np_clip x 0 (Z.of_nat n - 1))).
Proof. intros H. apply py_index_in_range, np_clip_range, H. Qed.

(** What [raw_slices] computes when neither volume is empty along the sliced
    axis: each volume is read at the requested position clamped to its own
    extent. *)
Lemma raw_slices_clamped (img : ndarray3 Q) (pred_vol : ndarray3 Z)
      (plane : string) (slice_idx : Z) :
  0 < plane_extent img plane -> 0 < plane_extent pred_vol plane ->
  let c := np_clip slice_idx 0 (Z.of_nat (plane_extent img plane) - 1) in
  raw_slices img pred_vol plane slice_idx
  = Ok (plane_slice 0%Q img plane (Z.to_nat c),
        plane_slice 0%Z pred_vol plane
          (Z.to_nat (np_clip c 0 (Z.of_nat (plane_extent pred_vol plane) - 1)))).
Proof.
  unfold raw_slices, plane_extent, plane_slice.
  destruct (plane =? "Axial")%string; [|destruct (plane =? "Sagittal")%string];
    intros Hi Hp; cbv zeta; rewrite !py_index_clip by assumption; reflexivity.
Qed.

Lemma plane_slice_shape {A} (d : A) (v : ndarray3 A) (plane : string) (i : nat) :
  wf2 (plane_slice d v plane i)
  /\ (nonempty3 v -> 0 < rows (plane_slice d v plane i)
                     /\ 0 < cols (plane_slice d v plane i)).
Proof.
  unfold plane_slice, wf2, nonempty3.
  destruct (plane =? "Axial")%string; [|destruct (plane =? "Sagittal")%string];
    simpl; rewrite length_tabulate2; (split; [reflexivity | lia]).
Qed.

Lemma shape2_eqb_eq (s t : nat * nat) : shape2_eqb s t = true <-> s = t.
Proof.
  destruct s, t. unfold shape2_eqb. simpl.
  rewrite andb_true_iff, !Nat.eqb_eq. split; [intros []; congruence | intros [= -> ->]; auto].
Qed.


Lemma nonempty3_plane_extent {A} (v : ndarray3 A) (plane : string) :
  nonempty3 v -> 0 < plane_extent v plane.
Proof.
  unfold nonempty3, plane_extent. intros (H0 & H1 & H2).
  destruct (plane =? "Axial")%string; [|destruct (plane =? "Sagittal")%string]; assumption.
Qed.




Lemma ensure_shapes_match_returns {A} (slice_img : ndarray2 A) (raw_pred : ndarray2 Z) :
  0 < rows raw_pred -> 0 < cols raw_pred ->
  0 < rows slice_img -> 0 < cols slice_img ->
  exists out,
    ensure_shapes_match slice_img raw_pred = Ok out
    /\ (shape2 raw_pred = shape2 slice_img -> out = raw_pred)
    /\ (shape2 raw_pred <> shape2 slice_img ->
        exists r,
          cv2_resize_nearest 0%Q (astype_float32 raw_pred)
            (cols slice_img) (rows slice_img) = Ok r
          /\ out = astype_int16 r).
Proof.
  intros Hr Hc Hr' Hc'. unfold ensure_shapes_match.
  destruct (shape2_eqb (shape2 raw_pred) (shape2 slice_img)) eqn:E; cbn [negb].
  - apply shape2_eqb_eq in E. exists raw_pred. repeat split; auto.
    intros H; contradiction.
  - assert (Hne : shape2 raw_pred <> shape2 slice_img).
    { intros H. apply shape2_eqb_eq in H. congruence. }
    unfold cv2_resize_nearest. cbn [astype_float32 rows cols].
    destruct (rows raw_pred =? 0) eqn:E1; [apply Nat.eqb_eq in E1; lia|].
    destruct (cols raw_pred =? 0) eqn:E2; [apply Nat.eqb_eq in E2; lia|].
    destruct (cols slice_img =? 0) eqn:E3; [apply Nat.eqb_eq in E3; lia|].
    destruct (rows slice_img =? 0) eqn:E4; [apply Nat.eqb_eq in E4; lia|].
    cbn [orb bind]. eexists. split; [reflexivity|]. split; [intros H; contradiction|].
    intros _. eexists. split; reflexivity.
Qed.

Lemma extract_slice_by_plane_is_ok (img : ndarray3 Q) (pred_vol : ndarray3 Z)
      (plane : string) (slice_idx : Z) :
  nonempty3 img -> nonempty3 pred_vol ->
  is_ok (extract_slice_by_plane img pred_vol plane slice_idx) = true.
Proof.
  intros Hi Hp. unfold extract_slice_by_plane.
  rewrite (raw_slices_clamped img pred_vol plane slice_idx
             (nonempty3_plane_extent img plane Hi)
             (nonempty3_plane_extent pred_vol plane Hp)).
  cbv zeta. cbn [bind].
  match goal with
  | |- context [ensure_shapes_match (plane_slice 0%Q img plane ?i)
                                    (plane_slice 0%Z pred_vol plane ?p)] =>
      destruct (plane_slice_shape 0%Q img plane i) as [_ Psi];
      destruct (plane_slice_shape 0%Z pred_vol plane p) as [_ Prp];
      destruct (ensure_shapes_match_returns
                  (plane_slice 0%Q img plane i) (plane_slice 0%Z pred_vol plane p))
        as (out & Hout & _);
      try (apply Prp, Hp); try (apply Psi, Hi);
      rewrite Hout
  end.
  reflexivity.
Qed.



(** A run with differing raw shapes: the 4 x 1 prediction slice is resampled
    to the 2 x 2 shape of the image slice. *)
Example extract_slice_by_plane_resamples :
  extract_slice_by_plane sample_image sample_labels "Coronal" 7
  = Ok (mk2 2 2 [6; 12; 5; 11]%Q, mk2 2 2 [3; 3; 1; 1]%Z).
Proof. reflexivity. Qed.

(** C2. For non-empty volumes and a position outside the image's range on
    the sliced axis, [extract_slice_by_plane] returns, and returns what it
    returns at the nearest position in range; the image is read at the
    position clamped to the image's extent and the prediction at that
    position clamped again to the prediction's extent. *)
Theorem extract_slice_by_plane_clamps
        (img : ndarray3 Q) (pred_vol : ndarray3 Z) (plane : string) (slice_idx : Z) :
  nonempty3 img -> nonempty3 pred_vol ->
  (slice_idx < 0 \/ Z.of_nat (plane_extent img plane) <= slice_idx)%Z ->
  let nearest :=
    if (slice_idx <? 0)%Z then 0%Z else (Z.of_nat (plane_extent img plane) - 1)%Z in
  (0 <= nearest < Z.of_nat (plane_extent img plane))%Z
  /\ is_ok (extract_slice_by_plane img pred_vol plane slice_idx) = true
  /\ extract_slice_by_plane img pred_vol plane slice_idx
     = extract_slice_by_plane img pred_vol plane nearest
  /\ exists i p,
       i < plane_extent img plane /\ p < plane_extent pred_vol plane
       /\ Z.of_nat i = nearest
       /\ Z.of_nat p = np_clip nearest 0 (Z.of_nat (plane_extent pred_vol plane) - 1)
       /\ raw_slices img pred_vol plane slice_idx
          = Ok (plane_slice 0%Q img plane i, plane_slice 0%Z pred_vol plane p).
Proof.
  intros Hi Hp Hout nearest.
  pose proof (nonempty3_plane_extent img plane Hi) as Ei.
  pose proof (nonempty3_plane_extent pred_vol plane Hp) as Ep.
  assert (Hclip : np_clip slice_idx 0 (Z.of_nat (plane_extent img plane) - 1) = nearest).
  { unfold nearest, np_clip. destruct (Z.ltb_spec slice_idx 0); lia. }
  assert (Hrange : (0 <= nearest < Z.of_nat (plane_extent img plane))%Z).
  { rewrite <- Hclip. apply np_clip_range, Ei. }
  assert (Hraw : raw_slices img pred_vol plane slice_idx
                 = raw_slices img pred_vol plane nearest).
  { rewrite !raw_slices_clamped by assumption. cbv zeta.
    rewrite Hclip, (np_clip_in_range nearest (plane_extent img plane) Hrange).
    reflexivity. }
  split; [exact Hrange|]. split; [|split].
  - apply extract_slice_by_plane_is_ok; assumption.
  - unfold extract_slice_by_plane. now rewrite Hraw.
  - exists (Z.to_nat nearest),
      (Z.to_nat (np_clip nearest 0 (Z.of_nat (plane_extent pred_vol plane) - 1))).
    pose proof (np_clip_range nearest (plane_extent pred_vol plane) Ep) as Hpr.
    repeat split; try lia.
    rewrite raw_slices_clamped by assumption. cbv zeta. rewrite Hclip. reflexivity.
Qed.

Lemma extract_slice_by_plane_clamps_witness :
  is_ok (extract_slice_by_plane sample_image sample_labels "Axial" 5) = true
  /\ extract_slice_by_plane sample_image sample_labels "Axial" 5
     = extract_slice_by_plane sample_image sample_labels "Axial" 1.
Proof.
  destruct (extract_slice_by_plane_clamps sample_image sample_labels "Axial" 5)
    as (_ & Hok & Heq & _).
  - unfold nonempty3; simpl; lia.
  - unfold nonempty3; simpl; lia.
  - right. simpl. lia.
  - split; [exact Hok | exact Heq].
Defined.

(** ** Class filter *)

Lemma py_int_not_keyword (s : string) (n : Z) :
  py_int s = Ok n -> (s =? "All")%string = false /\ (s =? "None")%string = false.
Proof.
  intros H. split.
  - destruct (String.eqb_spec s "All") as [->|]; [discriminate H | reflexivity].
  - destruct (String.eqb_spec s "None") as [->|]; [discriminate H | reflexivity].
Qed.

Lemma np_where_eq_cells (m : ndarray2 Z) (n : Z) :
  cells2 (np_where_eq m n) = map (fun v => if (v =? n)%Z then n else 0%Z) (cells2 m)
  /\ Forall (fun v => v = 0%Z \/ v = n) (cells2 (np_where_eq m n)).
Proof.
  unfold np_where_eq. simpl. split.
  - apply map_ext. intros v. destruct (Z.eqb_spec v n); congruence.
  - apply Forall_map, Forall_forall. intros v _.
    destruct (Z.eqb_spec v n); auto.
Qed.

(** C6. For every prediction slice: the filter "None" gives a slice of the
    same shape whose cells are all zero; the filter "All" gives the slice
    itself; the filter "2", and likewise any literal that [int] reads as a
    number [n], gives a slice of the same shape in which every cell equal to
    [n] keeps its value and every other cell is zero, so that only zeros and
    [n] occur. *)
Theorem filter_prediction_by_class_correct (pred_slice : ndarray2 Z) :
  (exists z, filter_prediction_by_class pred_slice "None" = Ok z
             /\ shape2 z = shape2 pred_slice
             /\ List.length (cells2 z) = List.length (cells2 pred_slice)
             /\ Forall (fun v => v = 0%Z) (cells2 z))
  /\ filter_prediction_by_class pred_slice "All" = Ok pred_slice
  /\ (exists f, filter_prediction_by_class pred_slice "2" = Ok f
                /\ shape2 f = shape2 pred_slice
                /\ cells2 f = map (fun v => if (v =? 2)%Z then 2%Z else 0%Z)
                                  (cells2 pred_slice)
                /\ Forall (fun v => v = 0%Z \/ v = 2%Z) (cells2 f))
  /\ (forall (selected_class : string) (n : Z),
         py_int selected_class = Ok n ->
         exists f, filter_prediction_by_class pred_slice selected_class = Ok f
                   /\ shape2 f = shape2 pred_slice
                   /\ cells2 f = map (fun v => if (v =? n)%Z then n else 0%Z)
                                     (cells2 pred_slice)
                   /\ Forall (fun v => v = 0%Z \/ v = n) (cells2 f)).
Proof.
  assert (Hnum : forall (selected_class : string) (n : Z),
             py_int selected_class = Ok n ->
             exists f, filter_prediction_by_class pred_slice selected_class = Ok f
                       /\ shape2 f = shape2 pred_slice
                       /\ cells2 f = map (fun v => if (v =? n)%Z then n else 0%Z)
                                         (cells2 pred_slice)
                       /\ Forall (fun v => v = 0%Z \/ v = n) (cells2 f)).
  { intros s n Hs. destruct (py_int_not_keyword s n Hs) as [Ha Hn].
    exists (np_where_eq pred_slice n).
    unfold filter_prediction_by_class. rewrite Ha, Hn, Hs. simpl.
    destruct (np_where_eq_cells pred_slice n) as [Hc Hf]. auto. }
  split; [|split; [|split]].
  - exists (zeros_like pred_slice). unfold zeros_like. simpl.
    repeat split.
    + now rewrite length_map.
    + apply Forall_map, Forall_forall. intros; reflexivity.
  - reflexivity.
  - apply (Hnum "2"%string 2%Z). reflexivity.
  - exact Hnum.
Qed.

Lemma filter_prediction_by_class_correct_witness :
  exists f, filter_prediction_by_class (mk2 2 2 [0; 3; 2; 3]%Z) " 3 " = Ok f
            /\ shape2 f = (2, 2)
            /\ cells2 f = [0; 3; 0; 3]%Z
            /\ Forall (fun v => v = 0%Z \/ v = 3%Z) (cells2 f).
Proof.
  destruct (filter_prediction_by_class_correct (mk2 2 2 [0; 3; 2; 3]%Z))
    as (_ & _ & _ & H).
  apply (H " 3 "%string 3%Z). reflexivity.
Defined.

(** ** Metrics *)


(** On labels 0..3 the three class masks partition the tumour mask. *)
Lemma class_counts_partition (l : list Z) :
  Forall is_label l ->
  (np_sum_mask (map (fun v => (v =? 1)%Z) l)
   + np_sum_mask (map (fun v => (v =? 2)%Z) l)
   + np_sum_mask (map (fun v => (v =? 3)%Z) l)
   = np_sum_mask (map (fun v => (v >? 0)%Z) l))%Z.
Proof.
  induction 1 as [|x l Hx _ IH]; simpl; [reflexivity|].
  unfold is_label in Hx.
  destruct (Z.eqb_spec x 1), (Z.eqb_spec x 2), (Z.eqb_spec x 3), (Z.gtb_spec x 0); lia.
Qed.









(** ** World to voxel coordinates *)


Lemma is_4x4_entries (m : matrix) :
  is_4x4 m = true ->
  exists a00 a01 a02 a03 a10 a11 a12 a13 a20 a21 a22 a23 a30 a31 a32 a33,
    m = [[a00; a01; a02; a03]; [a10; a11; a12; a13];
         [a20; a21; a22; a23]; [a30; a31; a32; a33]].
Proof.
  unfold is_4x4. intros H. apply andb_true_iff in H. destruct H as [Hl Hr].
  apply Nat.eqb_eq in Hl.
  destruct m as [|r0 [|r1 [|r2 [|r3 [|]]]]]; try discriminate Hl.
  simpl in Hr. rewrite !andb_true_iff, !Nat.eqb_eq in Hr.
  destruct Hr as (H0 & H1 & H2 & H3 & _).
  destruct r0 as [|? [|? [|? [|? [|]]]]]; try discriminate H0.
  destruct r1 as [|? [|? [|? [|? [|]]]]]; try discriminate H1.
  destruct r2 as [|? [|? [|? [|? [|]]]]]; try discriminate H2.
  destruct r3 as [|? [|? [|? [|? [|]]]]]; try discriminate H3.
  repeat eexists.
Qed.






Example world_to_voxel_runs :
  world_to_voxel sample_affine
    (mk_coords (Some (-92)%Q) (Some 114%Q) (Some (123 # 2)%Q))
  = [92%Z; 125%Z; 62%Z]
  /\ world_to_voxel sample_affine (mk_coords None (Some 114%Q) (Some 61%Q))
     = [(-92)%Z; 114%Z; 61%Z].
Proof. split; reflexivity. Qed.

(** ** The canonical prediction volume *)

Lemma wrap_int16_small (z : Z) : (-32768 <= z <= 32767)%Z -> wrap_int16 z = z.
Proof. intros H. unfold wrap_int16. rewrite Z.mod_small; lia. Qed.

Lemma int16_of_float32 (z : Z) :
  (-32768 <= z <= 32767)%Z -> wrap_int16 (Qtruncate (inject_Z z)) = z.
Proof.
  intros H. unfold Qtruncate, inject_Z. cbn [Qnum Qden].
  rewrite Z.quot_1_r. apply wrap_int16_small, H.
Qed.

Lemma argmax_from_bound (l : list Q) (best : Q) (best_i i : nat) :
  best_i < i -> argmax_from best best_i i l < i + List.length l.
Proof.
  revert best best_i i. induction l as [|x l IH]; intros best best_i i H; simpl.
  - lia.
  - destruct (Qle_bool x best).
    + specialize (IH best best_i (S i)). lia.
    + specialize (IH x i (S i)). lia.
Qed.

Lemma np_argmax_lt (l : list Q) : l <> [] -> np_argmax l < List.length l.
Proof.
  destruct l as [|x l]; [congruence|]. intros _. simpl.
  apply (argmax_from_bound l x 0 1). lia.
Qed.

Lemma label_of_argmax (l : list Q) :
  List.length l = 4 -> is_label (wrap_int16 (Z.of_nat (np_argmax l))).
Proof.
  intros Hlen. assert (Hl : np_argmax l < 4).
  { rewrite <- Hlen. apply np_argmax_lt. intros ->. discriminate Hlen. }
  unfold is_label. rewrite wrap_int16_small; lia.
Qed.

Lemma argmax_axis3_labels (a : ndarray4 Q) (v : ndarray3 Z) :
  chans4 a = 4 -> argmax_axis3 a = Ok v -> Forall is_label (cells3 v).
Proof.
  intros Hc. unfold argmax_axis3. rewrite Hc. cbn [Nat.eqb]. intros [= <-].
  cbn [cells3]. apply Forall_tabulate3. intros s i j _ _ _.
  apply (label_of_argmax (map (fun c => get4 a s i j c) (seq 0 4))).
  reflexivity.
Qed.

Lemma moveaxis_labels (a : ndarray3 Z) :
  Forall is_label (cells3 a) -> Forall is_label (cells3 (moveaxis_0_2 a)).
Proof.
  intros H. unfold moveaxis_0_2. simpl. apply Forall_tabulate3.
  intros i j k _ _ _. unfold get3. apply Forall_nth_default; [exact H|].
  unfold is_label; lia.
Qed.

(** A resampled layer of labels holds labels only. *)
Lemma resized_layer_labels (r : ndarray2 Q) (src : ndarray2 Z) (dw dh : nat) :
  Forall is_label (cells2 src) ->
  cv2_resize_nearest 0%Q (astype_float32 src) dw dh = Ok r ->
  Forall is_label (cells2 (astype_int16 r)).
Proof.
  intros Hsrc. unfold cv2_resize_nearest.
  destruct (_ || _); [discriminate|]. intros [= <-]. simpl.
  apply Forall_map, Forall_tabulate2. intros y x _ _.
  unfold get2. apply (Forall_nth_default (fun q => is_label (wrap_int16 (Qtruncate q)))).
  - simpl. apply Forall_map. revert Hsrc. apply Forall_impl.
    intros z Hz. unfold is_label in Hz. rewrite int16_of_float32 by lia. exact Hz.
  - vm_compute. split; discriminate.
Qed.

Lemma take_axis2_labels (v : ndarray3 Z) (z : nat) :
  Forall is_label (cells3 v) -> Forall is_label (cells2 (take_axis2 0%Z v z)).
Proof.
  intros H. simpl. apply Forall_tabulate2. intros i j _ _.
  unfold get3. apply Forall_nth_default; [exact H | unfold is_label; lia].
Qed.

Lemma set_axis2_labels (v : ndarray3 Z) (z : nat) (layer : ndarray2 Z) :
  Forall is_label (cells3 v) -> Forall is_label (cells2 layer) ->
  Forall is_label (cells3 (set_axis2 v z layer)).
Proof.
  intros Hv Hl. simpl. apply Forall_tabulate3. intros i j k _ _ _.
  destruct (k =? z); [unfold get2 | unfold get3];
    (apply Forall_nth_default; [assumption | unfold is_label; lia]).
Qed.

Lemma resize_layers_labels (pred_vol : ndarray3 Z) (reference_shape : nat * nat * nat)
      (zs : list nat) (acc out : ndarray3 Z) :
  Forall is_label (cells3 pred_vol) -> Forall is_label (cells3 acc) ->
  resize_layers pred_vol reference_shape zs acc = Ok out ->
  Forall is_label (cells3 out).
Proof.
  intros Hp. revert acc. induction zs as [|z zs IH]; intros acc Hacc; simpl.
  - intros [= <-]. exact Hacc.
  - destruct (cv2_resize_nearest 0%Q (astype_float32 (take_axis2 0%Z pred_vol z))
                (snd (fst reference_shape)) (fst (fst reference_shape)))
      as [layer|e] eqn:E; simpl; [|discriminate].
    apply IH. apply set_axis2_labels; [exact Hacc|].
    eapply resized_layer_labels; [|exact E]. apply take_axis2_labels, Hp.
Qed.

Lemma resize_layers_shape (pred_vol : ndarray3 Z) (reference_shape : nat * nat * nat)
      (zs : list nat) (acc out : ndarray3 Z) :
  resize_layers pred_vol reference_shape zs acc = Ok out ->
  shape3 out = shape3 acc.
Proof.
  revert acc. induction zs as [|z zs IH]; intros acc; simpl.
  - intros [= <-]. reflexivity.
  - destruct (cv2_resize_nearest _ _ _ _) as [layer|e]; simpl; [|discriminate].
    intros H. apply IH in H. exact H.
Qed.

Lemma resize_layers_returns (pred_vol : ndarray3 Z) (reference_shape : nat * nat * nat)
      (zs : list nat) (acc : ndarray3 Z) :
  0 < dim0 pred_vol -> 0 < dim1 pred_vol ->
  0 < fst (fst reference_shape) -> 0 < snd (fst reference_shape) ->
  exists out, resize_layers pred_vol reference_shape zs acc = Ok out.
Proof.
  intros H0 H1 Ha Hb. revert acc. induction zs as [|z zs IH]; intros acc; simpl.
  - eexists; reflexivity.
  - unfold cv2_resize_nearest at 1. simpl.
    destruct (dim0 pred_vol =? 0) eqn:E0; [apply Nat.eqb_eq in E0; lia|].
    destruct (dim1 pred_vol =? 0) eqn:E1; [apply Nat.eqb_eq in E1; lia|].
    destruct (snd (fst reference_shape) =? 0) eqn:E2; [apply Nat.eqb_eq in E2; lia|].
    destruct (fst (fst reference_shape) =? 0) eqn:E3; [apply Nat.eqb_eq in E3; lia|].
    simpl. apply IH.
Qed.

Lemma resize_layers_wf (pred_vol : ndarray3 Z) (reference_shape : nat * nat * nat)
      (zs : list nat) (acc out : ndarray3 Z) :
  wf3 acc -> resize_layers pred_vol reference_shape zs acc = Ok out -> wf3 out.
Proof.
  revert acc. induction zs as [|z zs IH]; intros acc Hacc; simpl.
  - intros [= <-]. exact Hacc.
  - destruct (cv2_resize_nearest _ _ _ _) as [layer|e]; simpl; [|discriminate].
    apply IH. unfold wf3, set_axis2. cbn [cells3 dim0 dim1 dim2].
    apply length_tabulate3.
Qed.

Lemma np_zeros3_wf (s : nat * nat * nat) : wf3 (np_zeros3 s).
Proof. destruct s as [[a b] c]. apply length_tabulate3. Qed.

Lemma moveaxis_wf (a : ndarray3 Z) : wf3 (moveaxis_0_2 a).
Proof. apply length_tabulate3. Qed.

Lemma shape3_eqb_eq (s t : nat * nat * nat) : shape3_eqb s t = true <-> s = t.
Proof.
  destruct s as [[a b] c], t as [[a' b'] c']. unfold shape3_eqb.
  rewrite !andb_true_iff, !Nat.eqb_eq.
  split; [intros [[-> ->] ->]; reflexivity | intros [= -> -> ->]; auto].
Qed.

Lemma np_zeros3_shape (s : nat * nat * nat) :
  shape3 (np_zeros3 s) = s /\ Forall is_label (cells3 (np_zeros3 s)).
Proof.
  destruct s as [[a b] c]. split; [reflexivity|]. simpl.
  apply Forall_tabulate3. intros. unfold is_label; lia.
Qed.

Lemma nearest_resize_keeps_channels (H W : nat) : keeps_channels (nearest_resize H W).
Proof.
  intros r a. unfold nearest_resize.
  destruct (shape r) as [|n [|h [|w [|c [|]]]]]; try discriminate.
  destruct (_ || _); [discriminate|]. intros [= <-]. reflexivity.
Qed.

Lemma nearest_resize_nonempty (H W : nat) :
  0 < H -> 0 < W -> resizes_nonempty (nearest_resize H W).
Proof.
  intros HH HW r n h w Hs Hn Hh Hw. unfold nearest_resize. rewrite Hs.
  destruct (h =? 0) eqn:E1; [apply Nat.eqb_eq in E1; lia|].
  destruct (w =? 0) eqn:E2; [apply Nat.eqb_eq in E2; lia|].
  destruct (H =? 0) eqn:E3; [apply Nat.eqb_eq in E3; lia|].
  destruct (W =? 0) eqn:E4; [apply Nat.eqb_eq in E4; lia|].
  simpl. eexists. split; [reflexivity|]. simpl. lia.
Qed.

Section PredictionProperties.
Variable predict_segmentation : nat -> string -> result (ndarray Q).
Variable resize_predicted_seg : ndarray Q -> result (ndarray4 Q).
Variable patient_root_of : string -> string.

Notation "'gpv'" :=
  (get_prediction_volume predict_segmentation resize_predicted_seg patient_root_of).
Notation "'normalize'" := (normalize_prediction resize_predicted_seg).
Notation "'fetch'" := (fetch_prediction predict_segmentation patient_root_of).

Lemma get_prediction_volume_steps (w : world) (patient_path : string)
      (reference_shape : nat * nat * nat) :
  gpv w patient_path reference_shape
  = match fetch w patient_path with
    | (w2, Raise e) => (w2, Raise e)
    | (w2, Ok None) => (w2, Raise (ValueError "Failed to generate prediction"))
    | (w2, Ok (Some pred_raw)) =>
        if invalid_prediction_shape pred_raw
        then (w2, Raise (ValueError "Invalid prediction shape"))
        else (w2, normalize pred_raw reference_shape)
    end.
Proof. reflexivity. Qed.

Lemma normalize_prediction_shape (pred_raw : ndarray Q)
      (reference_shape : nat * nat * nat) (v : ndarray3 Z) :
  normalize pred_raw reference_shape = Ok v -> shape3 v = reference_shape.
Proof.
  unfold normalize_prediction.
  destruct (resize_predicted_seg pred_raw) as [a|e]; cbn [bind]; [|discriminate].
  destruct (argmax_axis3 a) as [cls|e]; cbn [bind]; [|discriminate].
  destruct (shape3_eqb (shape3 (moveaxis_0_2 cls)) reference_shape) eqn:E; cbn [negb].
  - intros [= <-]. apply shape3_eqb_eq, E.
  - intros H. apply resize_layers_shape in H. rewrite H.
    apply np_zeros3_shape.
Qed.

Lemma normalize_prediction_wf (pred_raw : ndarray Q)
      (reference_shape : nat * nat * nat) (v : ndarray3 Z) :
  normalize pred_raw reference_shape = Ok v -> wf3 v.
Proof.
  unfold normalize_prediction.
  destruct (resize_predicted_seg pred_raw) as [a|e]; cbn [bind]; [|discriminate].
  destruct (argmax_axis3 a) as [cls|e]; cbn [bind]; [|discriminate].
  destruct (shape3_eqb (shape3 (moveaxis_0_2 cls)) reference_shape); cbn [negb].
  - intros [= <-]. apply moveaxis_wf.
  - apply resize_layers_wf, np_zeros3_wf.
Qed.

Lemma normalize_prediction_labels (pred_raw : ndarray Q)
      (reference_shape : nat * nat * nat) (v : ndarray3 Z) :
  keeps_channels resize_predicted_seg ->
  nth 3 (shape pred_raw) 0 = 4 ->
  normalize pred_raw reference_shape = Ok v -> Forall is_label (cells3 v).
Proof.
  intros K Hc. unfold normalize_prediction.
  destruct (resize_predicted_seg pred_raw) as [a|e] eqn:Ea; cbn [bind]; [|discriminate].
  assert (Hca : chans4 a = 4) by (rewrite (K _ _ Ea); exact Hc).
  destruct (argmax_axis3 a) as [cls|e] eqn:Ecls; cbn [bind]; [|discriminate].
  pose proof (moveaxis_labels cls (argmax_axis3_labels a cls Hca Ecls)) as Hmv.
  destruct (shape3_eqb (shape3 (moveaxis_0_2 cls)) reference_shape); cbn [negb].
  - intros [= <-]. exact Hmv.
  - apply resize_layers_labels; [exact Hmv | apply np_zeros3_shape].
Qed.

Lemma normalize_prediction_returns (pred_raw : ndarray Q) (n h w' : nat)
      (reference_shape : nat * nat * nat) :
  keeps_channels resize_predicted_seg -> resizes_nonempty resize_predicted_seg ->
  shape pred_raw = [n; h; w'; 4] -> 0 < n -> 0 < h -> 0 < w' ->
  (0 < fst (fst reference_shape) /\ 0 < snd (fst reference_shape))
  \/ snd reference_shape = 0 ->
  exists v, normalize pred_raw reference_shape = Ok v.
Proof.
  intros K1 K2 Hs Hn Hh Hw Href. unfold normalize_prediction.
  destruct (K2 pred_raw n h w' Hs Hn Hh Hw) as (a & Ea & Hr & Hc).
  rewrite Ea. cbn [bind].
  assert (Hca : chans4 a = 4) by (rewrite (K1 _ _ Ea), Hs; reflexivity).
  unfold argmax_axis3. rewrite Hca. cbn [Nat.eqb bind].
  match goal with |- context [moveaxis_0_2 ?c] => set (cls := c) end.
  destruct (shape3_eqb (shape3 (moveaxis_0_2 cls)) reference_shape); cbn [negb].
  - eexists; reflexivity.
  - destruct Href as [[Ha Hb]|Hz].
    + apply resize_layers_returns; assumption.
    + rewrite Hz, Nat.min_0_r. cbn [seq resize_layers]. eexists; reflexivity.
Qed.

Lemma option_string_eqb_spec (a : option string) (b : string) :
  option_string_eqb a b = true <-> a = Some b.
Proof.
  destruct a as [s|]; simpl.
  - rewrite String.eqb_eq. split; [intros ->; reflexivity | intros [= ->]; reflexivity].
  - split; discriminate.
Qed.

Lemma fetch_prediction_cached (w : world) (patient_path : string)
      (w1 : world) (r : option (ndarray Q)) :
  fetch w patient_path = (w1, Ok r) ->
  fetch w1 patient_path = (w1, Ok r)
  /\ model_calls w <= model_calls w1 <= S (model_calls w).
Proof.
  unfold fetch_prediction, predict_btn_click.
  destruct (option_string_eqb (current_patient (SESSION_STATE w)) patient_path) eqn:Ecp;
    cbn [negb].
  - destruct (pred_gen_for_this_patient (SESSION_STATE w)) eqn:Eg; cbn [negb].
    + intros [= <- <-]. rewrite Ecp. cbn [negb]. rewrite Eg. cbn [negb].
      split; [reflexivity | lia].
    + destruct (predict_segmentation (model_calls w) (patient_root_of patient_path))
        as [raw|e]; [|discriminate].
      intros [= <- <-]. cbn. rewrite Ecp. cbn. split; [reflexivity | lia].
  - cbn. destruct (predict_segmentation (model_calls w) (patient_root_of patient_path))
      as [raw|e]; [|discriminate].
    intros [= <- <-]. cbn. rewrite String.eqb_refl. cbn. split; [reflexivity | lia].
Qed.

Lemma fetch_prediction_switch (w : world) (patient_path : string) :
  current_patient (SESSION_STATE w) <> Some patient_path ->
  model_calls (fst (fetch w patient_path)) = S (model_calls w)
  /\ current_patient (SESSION_STATE (fst (fetch w patient_path)))
     = Some patient_path
  /\ forall raw,
       predict_segmentation (model_calls w) (patient_root_of patient_path) = Ok raw ->
       fetch w patient_path
       = (store_prediction
            (count_model_call
               (set_current_patient (patient_has_changed_update_token w) patient_path))
            raw,
          Ok (Some raw)).
Proof.
  intros Hne. unfold fetch_prediction, predict_btn_click.
  destruct (option_string_eqb (current_patient (SESSION_STATE w)) patient_path) eqn:Ecp.
  - apply option_string_eqb_spec in Ecp. contradiction.
  - cbn. destruct (predict_segmentation (model_calls w) (patient_root_of patient_path))
      as [raw|e]; cbn; repeat split; try reflexivity.
    + intros raw' [= <-]. reflexivity.
    + intros raw' [=].
Qed.

Lemma get_prediction_volume_world (w : world) (patient_path : string)
      (reference_shape : nat * nat * nat) :
  fst (gpv w patient_path reference_shape) = fst (fetch w patient_path).
Proof.
  rewrite get_prediction_volume_steps.
  destruct (fetch w patient_path) as [w2 [[raw|]|e]]; try reflexivity.
  destruct (invalid_prediction_shape raw); reflexivity.
Qed.

(** C3. When a request for the canonical prediction of a patient returns a
    volume, the same request made again right after returns the same volume
    and leaves the process state as it is, the count of inference calls
    included; over both requests inference ran at most once. A request for
    a patient other than the current one clears the cache flags, runs
    inference exactly once, makes that patient the current one and caches
    what inference returned. *)
Theorem get_prediction_volume_cached :
  (forall w patient_path reference_shape w1 v,
      gpv w patient_path reference_shape = (w1, Ok v) ->
      gpv w1 patient_path reference_shape = (w1, Ok v)
      /\ model_calls w1 <= S (model_calls w))
  /\ (forall w patient_path reference_shape,
         current_patient (SESSION_STATE w) <> Some patient_path ->
         let flags := SESSION_STATE (patient_has_changed_update_token w) in
         let w1 := fst (gpv w patient_path reference_shape) in
         pred_gen_for_this_patient flags = false
         /\ pred_can_be_displayed flags = false
         /\ model_calls w1 = S (model_calls w)
         /\ current_patient (SESSION_STATE w1) = Some patient_path
         /\ forall raw,
              predict_segmentation (model_calls w) (patient_root_of patient_path)
              = Ok raw ->
              pred_seg (SESSION_STATE w1) = Some raw
              /\ pred_gen_for_this_patient (SESSION_STATE w1) = true).
Proof.
  split.
  - intros w p ref w1 v H. rewrite get_prediction_volume_steps in H.
    destruct (fetch w p) as [w2 [[raw|]|e]] eqn:F; try discriminate H.
    destruct (invalid_prediction_shape raw) eqn:V; [discriminate H|].
    injection H as <- Hn.
    destruct (fetch_prediction_cached w p w2 (Some raw) F) as [F2 Hcalls].
    rewrite get_prediction_volume_steps, F2, V, Hn. split; [reflexivity | lia].
  - intros w p ref Hne flags w1. subst flags w1.
    rewrite get_prediction_volume_world.
    destruct (fetch_prediction_switch w p Hne) as (Hc & Hp & Hraw).
    repeat split; try assumption.
    + rewrite (Hraw raw H). reflexivity.
    + rewrite (Hraw raw H). reflexivity.
Qed.

(** C7, as the code has it. [get_prediction_volume] raises [ValueError]
    when the prediction handed over by the cache is [None], and when its
    rank is not 4 or its last axis does not hold 4 channels. The reference
    shape is not checked: with a valid non-empty raw prediction the call
    returns a volume of the reference shape whenever the first two reference
    extents are positive, and also whenever the third one is zero. Every
    volume it returns has the reference shape and a buffer of that size. *)
Theorem get_prediction_volume_errors
        (w : world) (patient_path : string) (reference_shape : nat * nat * nat)
        (w2 : world) (fetched : result (option (ndarray Q))) :
  keeps_channels resize_predicted_seg -> resizes_nonempty resize_predicted_seg ->
  fetch w patient_path = (w2, fetched) ->
  (fetched = Ok None ->
   gpv w patient_path reference_shape
   = (w2, Raise (ValueError "Failed to generate prediction")))
  /\ (forall pred_raw,
         fetched = Ok (Some pred_raw) ->
         List.length (shape pred_raw) <> 4 \/ nth 3 (shape pred_raw) 0 <> 4 ->
         gpv w patient_path reference_shape
         = (w2, Raise (ValueError "Invalid prediction shape")))
  /\ (forall pred_raw n h w',
         fetched = Ok (Some pred_raw) ->
         shape pred_raw = [n; h; w'; 4] -> 0 < n -> 0 < h -> 0 < w' ->
         (0 < fst (fst reference_shape) /\ 0 < snd (fst reference_shape))
         \/ snd reference_shape = 0 ->
         exists v, gpv w patient_path reference_shape = (w2, Ok v)
                   /\ shape3 v = reference_shape)
  /\ (forall v, snd (gpv w patient_path reference_shape) = Ok v ->
                shape3 v = reference_shape /\ wf3 v).
Proof.
  intros K1 K2 F. rewrite get_prediction_volume_steps, F.
  split; [|split; [|split]].
  - intros ->. reflexivity.
  - intros raw -> Hbad.
    assert (V : invalid_prediction_shape raw = true).
    { unfold invalid_prediction_shape. apply orb_true_iff.
      destruct Hbad as [Hb|Hb]; [left | right];
        apply negb_true_iff, Nat.eqb_neq, Hb. }
    rewrite V. reflexivity.
  - intros raw n h w' -> Hs Hn Hh Hw Href.
    assert (V : invalid_prediction_shape raw = false).
    { unfold invalid_prediction_shape. rewrite Hs. reflexivity. }
    rewrite V.
    destruct (normalize_prediction_returns raw n h w' reference_shape
                K1 K2 Hs Hn Hh Hw Href) as [v Hv].
    exists v. rewrite Hv. split; [reflexivity|].
    apply (normalize_prediction_shape raw reference_shape v Hv).
  - intros v. destruct fetched as [[raw|]|e]; cbn [snd]; try discriminate.
    destruct (invalid_prediction_shape raw); cbn [snd]; [discriminate|].
    intros Hv. split.
    + apply (normalize_prediction_shape raw reference_shape v Hv).
    + apply (normalize_prediction_wf raw reference_shape v Hv).
Qed.

(** A returned volume is the normalisation of a raw prediction that passed
    the shape test. *)
Lemma get_prediction_volume_inv
      (w : world) (patient_path : string) (reference_shape : nat * nat * nat)
      (w1 : world) (v : ndarray3 Z) :
  gpv w patient_path reference_shape = (w1, Ok v) ->
  exists pred_raw,
    fetch w patient_path = (w1, Ok (Some pred_raw))
    /\ List.length (shape pred_raw) = 4
    /\ nth 3 (shape pred_raw) 0 = 4
    /\ normalize pred_raw reference_shape = Ok v.
Proof.
  intros H. rewrite get_prediction_volume_steps in H.
  destruct (fetch w patient_path) as [w2 [[raw|]|e]]; try discriminate H.
  destruct (invalid_prediction_shape raw) eqn:V; [discriminate H|].
  injection H as <- Hn.
  unfold invalid_prediction_shape in V. apply orb_false_iff in V.
  destruct V as [V4 Vc].
  apply negb_false_iff, Nat.eqb_eq in V4. apply negb_false_iff, Nat.eqb_eq in Vc.
  exists raw. auto.
Qed.

(** C10. Every volume returned by [get_prediction_volume] holds labels 0,
    1, 2 and 3 only, provided the resizing helper keeps the four channels of
    the validated raw prediction. *)
Theorem get_prediction_volume_labels
        (w : world) (patient_path : string) (reference_shape : nat * nat * nat)
        (w1 : world) (v : ndarray3 Z) :
  keeps_channels resize_predicted_seg ->
  gpv w patient_path reference_shape = (w1, Ok v) ->
  Forall (fun label => (0 <= label <= 3)%Z) (cells3 v).
Proof.
  intros K H.
  destruct (get_prediction_volume_inv w patient_path reference_shape w1 v H)
    as (raw & _ & _ & Hchan & Hnorm).
  pose proof (normalize_prediction_labels raw reference_shape v K Hchan Hnorm) as Hl.
  revert Hl. apply Forall_impl. intros label Hlabel. exact Hlabel.
Qed.

(** C4. For every canonical prediction volume and every voxel volume, the
    voxel counts of classes 1, 2 and 3 in [calculate_class_metrics] add up
    to the voxel count of [calculate_total_tumor_metrics]. *)
Theorem class_counts_sum_to_total
        (w : world) (patient_path : string) (reference_shape : nat * nat * nat)
        (w1 : world) (v : ndarray3 Z) (voxel_volume_mm3 : Q) :
  keeps_channels resize_predicted_seg ->
  gpv w patient_path reference_shape = (w1, Ok v) ->
  exists m1 m2 m3,
    dict_get (calculate_class_metrics v voxel_volume_mm3) 1%Z = Some m1
    /\ dict_get (calculate_class_metrics v voxel_volume_mm3) 2%Z = Some m2
    /\ dict_get (calculate_class_metrics v voxel_volume_mm3) 3%Z = Some m3
    /\ (voxel_count m1 + voxel_count m2 + voxel_count m3
        = voxel_count (calculate_total_tumor_metrics v voxel_volume_mm3))%Z.
Proof.
  intros K H.
  destruct (get_prediction_volume_inv w patient_path reference_shape w1 v H)
    as (raw & _ & _ & Hchan & Hnorm).
  pose proof (normalize_prediction_labels raw reference_shape v K Hchan Hnorm) as Hl.
  exists (class_metrics_of v voxel_volume_mm3 1), (class_metrics_of v voxel_volume_mm3 2),
    (class_metrics_of v voxel_volume_mm3 3).
  repeat split. cbn [voxel_count class_metrics_of calculate_total_tumor_metrics].
  apply class_counts_partition, Hl.
Qed.
End PredictionProperties.

(** ** Runs of the prediction pipeline *)

Lemma sample_pipeline_run :
  sample_pipeline fresh_world "case_001" (2, 2, 1)
  = (sample_cached_world, Ok sample_canonical).
Proof. reflexivity. Qed.

Lemma get_prediction_volume_cached_witness :
  sample_pipeline sample_cached_world "case_001" (2, 2, 1)
  = (sample_cached_world, Ok sample_canonical)
  /\ model_calls sample_cached_world <= S (model_calls fresh_world).
Proof.
  apply (proj1 (get_prediction_volume_cached sample_model (nearest_resize 2 2) sample_root)
           fresh_world "case_001"%string (2, 2, 1)).
  reflexivity.
Defined.

Lemma get_prediction_volume_errors_witness :
  exists v, sample_pipeline fresh_world "case_001" (3, 3, 2) = (sample_cached_world, Ok v)
            /\ shape3 v = (3, 3, 2).
Proof.
  destruct (get_prediction_volume_errors sample_model (nearest_resize 2 2) sample_root
              fresh_world "case_001"%string (3, 3, 2)
              sample_cached_world (Ok (Some sample_raw)))
    as (_ & _ & H & _).
  - apply nearest_resize_keeps_channels.
  - apply nearest_resize_nonempty; lia.
  - reflexivity.
  - apply (H sample_raw 1 1 1); try reflexivity; try lia.
    left. simpl. lia.
Defined.

(** A reference shape with a zero extent is accepted: the call returns an
    empty volume of that shape. *)
Lemma zero_depth_reference_accepted :
  snd (sample_pipeline fresh_world "case_001" (240, 240, 0))
  = Ok (mk3 240 240 0 [])
  /\ ~ exists e, snd (sample_pipeline fresh_world "case_001" (240, 240, 0)) = Raise e.
Proof.
  assert (H : snd (sample_pipeline fresh_world "case_001" (240, 240, 0))
              = Ok (mk3 240 240 0 [])) by (vm_compute; reflexivity).
  split; [exact H|]. intros [e He]. rewrite H in He. discriminate He.
Qed.

Lemma get_prediction_volume_labels_witness :
  Forall (fun label => (0 <= label <= 3)%Z) (cells3 sample_canonical).
Proof.
  apply (get_prediction_volume_labels sample_model (nearest_resize 2 2) sample_root
           fresh_world "case_001"%string (2, 2, 1) sample_cached_world sample_canonical).
  - apply nearest_resize_keeps_channels.
  - reflexivity.
Defined.

Lemma class_counts_sum_to_total_witness :
  exists m1 m2 m3,
    dict_get (calculate_class_metrics sample_canonical 1%Q) 1%Z = Some m1
    /\ dict_get (calculate_class_metrics sample_canonical 1%Q) 2%Z = Some m2
    /\ dict_get (calculate_class_metrics sample_canonical 1%Q) 3%Z = Some m3
    /\ (voxel_count m1 + voxel_count m2 + voxel_count m3
        = voxel_count (calculate_total_tumor_metrics sample_canonical 1%Q))%Z.
Proof.
  apply (class_counts_sum_to_total sample_model (nearest_resize 2 2) sample_root
           fresh_world "case_001"%string (2, 2, 1) sample_cached_world sample_canonical).
  - apply nearest_resize_keeps_channels.
  - reflexivity.
Defined.

(** Outside the label set the three class counts do not add up to the
    tumour count: the identity is a property of canonical volumes. *)
Example class_counts_need_labels :
  let v := mk3 1 1 2 [4; 1]%Z in
  voxel_count (class_metrics_of v 1%Q 1) = 1%Z
  /\ voxel_count (class_metrics_of v 1%Q 2) = 0%Z
  /\ voxel_count (class_metrics_of v 1%Q 3) = 0%Z
  /\ voxel_count (calculate_total_tumor_metrics v 1%Q) = 2%Z.
Proof. repeat split. Qed.

(** ** The sweep *)

Lemma create_slicer_function_spec (img : ndarray3 Q) (pred_vol : ndarray3 Z)
      (plane : string) :
  create_slicer_function img pred_vol plane
  = (plane_extent img plane, slicer_of img pred_vol plane).
Proof.
  unfold create_slicer_function, slicer_of, plane_extent, plane_slice.
  destruct (plane =? "Axial")%string; [reflexivity|].
  destruct (plane =? "Sagittal")%string; reflexivity.
Qed.

Lemma stride_positive (plane : string) (num_slices : nat) :
  0 < fst (get_gif_animation_params plane num_slices).
Proof.
  unfold get_gif_animation_params.
  destruct (plane =? "Axial")%string; cbn [fst]; lia.
Qed.

Lemma py_range_length (stop step : nat) :
  List.length (py_range stop step) = (stop + step - 1) / step.
Proof. unfold py_range. now rewrite length_map, length_seq. Qed.


Lemma py_range_below (stop step k : nat) :
  0 < step -> In k (py_range stop step) -> k < stop.
Proof.
  intros Hs Hin. unfold py_range in Hin. apply in_map_iff in Hin.
  destruct Hin as (q & <- & Hq). apply in_seq in Hq.
  pose proof (Nat.Div0.mul_div_le (stop + step - 1) step) as Hle. nia.
Qed.

Lemma plane_slice_shape2 {A} (d : A) (v : ndarray3 A) (plane : string) (i : nat) :
  shape2 (plane_slice d v plane i)
  = if (plane =? "Axial")%string then (dim0 v, dim1 v)
    else if (plane =? "Sagittal")%string then (dim2 v, dim1 v)
    else (dim2 v, dim0 v).
Proof.
  unfold plane_slice.
  destruct (plane =? "Axial")%string; [reflexivity|].
  destruct (plane =? "Sagittal")%string; reflexivity.
Qed.

Lemma filter_prediction_by_class_returns (m : ndarray2 Z) (selected_class : string) :
  valid_class_filter selected_class = true ->
  exists f, filter_prediction_by_class m selected_class = Ok f.
Proof.
  unfold valid_class_filter, filter_prediction_by_class. intros H.
  destruct (selected_class =? "All")%string; [eexists; reflexivity|].
  destruct (selected_class =? "None")%string; [eexists; reflexivity|].
  simpl in H. destruct (py_int selected_class); [|discriminate].
  eexists; reflexivity.
Qed.

Section SweepProperties.
Variable frame : Type.
Variable render_frame : ndarray2 Q -> ndarray2 Z -> frame.
Variable encode_gif : list frame -> nat -> string.





Variable predict_segmentation : nat -> string -> result (ndarray Q).
Variable resize_predicted_seg : ndarray Q -> result (ndarray4 Q).
Variable patient_root_of : string -> string.
Variable load_volume : string -> string -> result (ndarray3 Q).

Notation "'route'" :=
  (get_gif frame render_frame encode_gif predict_segmentation resize_predicted_seg
     patient_root_of load_volume).


End SweepProperties.


(** The whole route on an image without axial slices: the prediction is
    normalised to the empty shape and the sweep reports the empty result. *)
Example get_gif_empty_volume :
  snd (get_gif unit (fun _ _ => tt) (fun _ _ => "gif"%string)
         sample_model (nearest_resize 2 2) sample_root
         (fun _ _ => Ok empty_depth_image)
         fresh_world "case_001" "FLAIR" "Axial" "All")
  = Ok (JsonError 500 "No frames generated. num_slices=0").
Proof. reflexivity. Qed.

(** * Further properties *)

(** ** Reading slices cell by cell *)

Lemma get2_tabulated {A} (d : A) (r c : nat) (f : nat -> nat -> A) (i j : nat) :
  i < r -> j < c -> get2 d (mk2 r c (tabulate2 r c f)) i j = f i j.
Proof. intros Hi Hj. unfold get2. cbn [cols cells2]. now apply nth_tabulate2. Qed.

Lemma get2_take_axis0 {A} (d : A) (v : ndarray3 A) (i j k : nat) :
  j < dim1 v -> k < dim2 v -> get2 d (take_axis0 d v i) j k = get3 d v i j k.
Proof. intros. unfold take_axis0. now rewrite get2_tabulated. Qed.

Lemma get2_take_axis1 {A} (d : A) (v : ndarray3 A) (i j k : nat) :
  i < dim0 v -> k < dim2 v -> get2 d (take_axis1 d v j) i k = get3 d v i j k.
Proof. intros. unfold take_axis1. now rewrite get2_tabulated. Qed.

Lemma get2_take_axis2 {A} (d : A) (v : ndarray3 A) (i j k : nat) :
  i < dim0 v -> j < dim1 v -> get2 d (take_axis2 d v k) i j = get3 d v i j k.
Proof. intros. unfold take_axis2. now rewrite get2_tabulated. Qed.

Lemma get2_rot90 {A} (d : A) (m : ndarray2 A) (i j : nat) :
  i < cols m -> j < rows m ->
  get2 d (rot90 d m) i j = get2 d m j (cols m - 1 - i).
Proof. intros. unfold rot90. now rewrite get2_tabulated. Qed.

(** ** Slices of volumes of equal shape *)

Lemma plane_extent_same_shape {A B} (v : ndarray3 A) (u : ndarray3 B) (plane : string) :
  shape3 u = shape3 v -> plane_extent u plane = plane_extent v plane.
Proof. unfold shape3, plane_extent. intros [= -> -> ->]. reflexivity. Qed.

Lemma nonempty3_same_shape {A B} (v : ndarray3 A) (u : ndarray3 B) :
  shape3 u = shape3 v -> nonempty3 v -> nonempty3 u.
Proof. unfold shape3, nonempty3. intros [= -> -> ->]. auto. Qed.

(** With a prediction of the image's shape both slices are taken at the same
    clamped position and nothing is resampled. *)
Lemma extract_slice_by_plane_same_shape (img : ndarray3 Q) (pred_vol : ndarray3 Z)
      (plane : string) (slice_idx : Z) :
  nonempty3 img -> shape3 pred_vol = shape3 img ->
  let i := Z.to_nat (np_clip slice_idx 0 (Z.of_nat (plane_extent img plane) - 1)) in
  i < plane_extent img plane
  /\ extract_slice_by_plane img pred_vol plane slice_idx
     = Ok (plane_slice 0%Q img plane i, plane_slice 0%Z pred_vol plane i).
Proof.
  intros Hi Hs i.
  pose proof (nonempty3_plane_extent img plane Hi) as Ei.
  pose proof (plane_extent_same_shape img pred_vol plane Hs) as He.
  pose proof (np_clip_range slice_idx (plane_extent img plane) Ei) as Hr.
  split; [unfold i; lia|].
  unfold extract_slice_by_plane.
  rewrite raw_slices_clamped by (rewrite ?He; assumption). cbv zeta.
  rewrite He.
  rewrite (np_clip_in_range
             (np_clip slice_idx 0 (Z.of_nat (plane_extent img plane) - 1))
             (plane_extent img plane) Hr).
  fold i. cbn [bind].
  unfold ensure_shapes_match.
  assert (Hsh : shape2 (plane_slice 0%Z pred_vol plane i)
                = shape2 (plane_slice 0%Q img plane i)).
  { rewrite !plane_slice_shape2. unfold shape3 in Hs. injection Hs as -> -> ->.
    reflexivity. }
  apply shape2_eqb_eq in Hsh. rewrite Hsh. reflexivity.
Qed.

(** ** Three views *)

(** X1. For a non-empty image, a prediction of the image's shape and any
    three integer voxel coordinates, [extract_three_view_slices] returns, and
    its sagittal, coronal and axial pairs are the pairs that
    [extract_slice_by_plane] returns for the planes "Sagittal", "Coronal" and
    "Axial" at the first, second and third coordinate. *)
Theorem three_views_agree_with_single_slices
        (img : ndarray3 Q) (pred_vol : ndarray3 Z) (x y z : Z) :
  nonempty3 img -> shape3 pred_vol = shape3 img ->
  exists v,
    extract_three_view_slices img pred_vol [x; y; z] = Ok v
    /\ extract_slice_by_plane img pred_vol "Sagittal" x
       = Ok (sagittal_img v, sagittal_pred v)
    /\ extract_slice_by_plane img pred_vol "Coronal" y
       = Ok (coronal_img v, coronal_pred v)
    /\ extract_slice_by_plane img pred_vol "Axial" z
       = Ok (axial_img v, axial_pred v).
Proof.
  intros Hi Hs.
  destruct (extract_slice_by_plane_same_shape img pred_vol "Sagittal" x Hi Hs)
    as [Hx Es].
  destruct (extract_slice_by_plane_same_shape img pred_vol "Coronal" y Hi Hs)
    as [Hy Ec].
  destruct (extract_slice_by_plane_same_shape img pred_vol "Axial" z Hi Hs)
    as [Hz Ea].
  rewrite Es, Ec, Ea. clear Es Ec Ea.
  change (plane_extent img "Sagittal") with (dim0 img) in *.
  change (plane_extent img "Coronal") with (dim1 img) in *.
  change (plane_extent img "Axial") with (dim2 img) in *.
  destruct Hi as (H0 & H1 & H2).
  unfold shape3 in Hs. injection Hs as E0 E1 E2.
  unfold extract_three_view_slices. cbn [array_item nth_error bind].
  rewrite E0, E1, E2.
  rewrite !py_index_clip by assumption. cbn [bind].
  eexists. split; [reflexivity|]. cbn. repeat split.
Qed.

Lemma three_views_agree_with_single_slices_witness :
  exists v,
    extract_three_view_slices sample_image
      (mk3 2 3 2 [0; 1; 2; 3; 0; 1; 2; 3; 0; 1; 2; 3]%Z) [5; -1; 1]%Z = Ok v
    /\ extract_slice_by_plane sample_image
         (mk3 2 3 2 [0; 1; 2; 3; 0; 1; 2; 3; 0; 1; 2; 3]%Z) "Sagittal" 5
       = Ok (sagittal_img v, sagittal_pred v)
    /\ extract_slice_by_plane sample_image
         (mk3 2 3 2 [0; 1; 2; 3; 0; 1; 2; 3; 0; 1; 2; 3]%Z) "Coronal" (-1)
       = Ok (coronal_img v, coronal_pred v)
    /\ extract_slice_by_plane sample_image
         (mk3 2 3 2 [0; 1; 2; 3; 0; 1; 2; 3; 0; 1; 2; 3]%Z) "Axial" 1
       = Ok (axial_img v, axial_pred v).
Proof.
  apply (three_views_agree_with_single_slices sample_image
           (mk3 2 3 2 [0; 1; 2; 3; 0; 1; 2; 3; 0; 1; 2; 3]%Z) 5 (-1) 1).
  - unfold nonempty3; simpl; lia.
  - reflexivity.
Defined.

Lemma py_index_nonneg (n : nat) (i : Z) :
  (0 <= i)%Z ->
  py_index n i = if (i <? Z.of_nat n)%Z then Ok (Z.to_nat i) else Raise IndexError.
Proof.
  intros H. unfold py_index.
  destruct (Z.leb_spec 0 i); [|lia].
  destruct (Z.ltb_spec i (Z.of_nat n)); cbn [andb]; [reflexivity|].
  destruct (Z.ltb_spec i 0); [lia|]. now rewrite andb_false_r.
Qed.

(** The image slices of the three views, whenever the call returns. *)
Lemma three_views_images (img : ndarray3 Q) (pred_vol : ndarray3 Z) (x y z : Z)
      (v : three_views) :
  nonempty3 img ->
  extract_three_view_slices img pred_vol [x; y; z] = Ok v ->
  sagittal_img v
  = rot90 0%Q (take_axis0 0%Q img
                 (Z.to_nat (np_clip x 0 (Z.of_nat (dim0 img) - 1))))
  /\ coronal_img v
     = rot90 0%Q (take_axis1 0%Q img
                    (Z.to_nat (np_clip y 0 (Z.of_nat (dim1 img) - 1))))
  /\ axial_img v
     = take_axis2 0%Q img (Z.to_nat (np_clip z 0 (Z.of_nat (dim2 img) - 1))).
Proof.
  intros (H0 & H1 & H2). unfold extract_three_view_slices.
  cbn [array_item nth_error bind].
  rewrite !py_index_clip by assumption. cbn [bind].
  destruct (py_index (dim0 pred_vol) _) as [xp|e]; cbn [bind]; [|discriminate].
  destruct (py_index (dim1 pred_vol) _) as [yp|e]; cbn [bind]; [|discriminate].
  destruct (py_index (dim2 pred_vol) _) as [zp|e]; cbn [bind]; [|discriminate].
  intros [= <-]. cbn. auto.
Qed.

(** X2. [extract_three_view_slices] clamps the coordinates to the image
    only: it returns when the prediction covers the three clamped
    coordinates and raises [IndexError] as soon as one of them lies beyond
    the prediction's extent. *)
Theorem three_views_prediction_not_clamped
        (img : ndarray3 Q) (pred_vol : ndarray3 Z) (x y z : Z) :
  nonempty3 img ->
  let cx := np_clip x 0 (Z.of_nat (dim0 img) - 1) in
  let cy := np_clip y 0 (Z.of_nat (dim1 img) - 1) in
  let cz := np_clip z 0 (Z.of_nat (dim2 img) - 1) in
  ((cx < Z.of_nat (dim0 pred_vol) /\ cy < Z.of_nat (dim1 pred_vol)
    /\ cz < Z.of_nat (dim2 pred_vol))%Z ->
   is_ok (extract_three_view_slices img pred_vol [x; y; z]) = true)
  /\ ((Z.of_nat (dim0 pred_vol) <= cx \/ Z.of_nat (dim1 pred_vol) <= cy
       \/ Z.of_nat (dim2 pred_vol) <= cz)%Z ->
      extract_three_view_slices img pred_vol [x; y; z] = Raise IndexError).
Proof.
  intros (H0 & H1 & H2) cx cy cz.
  pose proof (np_clip_range x (dim0 img) H0) as Rx.
  pose proof (np_clip_range y (dim1 img) H1) as Ry.
  pose proof (np_clip_range z (dim2 img) H2) as Rz.
  fold cx in Rx. fold cy in Ry. fold cz in Rz.
  unfold extract_three_view_slices. cbn [array_item nth_error bind].
  fold cx cy cz.
  rewrite (py_index_in_range (dim0 img) cx Rx), (py_index_in_range (dim1 img) cy Ry),
    (py_index_in_range (dim2 img) cz Rz).
  cbn [bind].
  rewrite (py_index_nonneg (dim0 pred_vol) cx), (py_index_nonneg (dim1 pred_vol) cy),
    (py_index_nonneg (dim2 pred_vol) cz) by lia.
  destruct (Z.ltb_spec cx (Z.of_nat (dim0 pred_vol)));
    destruct (Z.ltb_spec cy (Z.of_nat (dim1 pred_vol)));
    destruct (Z.ltb_spec cz (Z.of_nat (dim2 pred_vol)));
    cbn [bind is_ok]; split; intros; try reflexivity; lia.
Qed.

Lemma three_views_prediction_not_clamped_witness :
  extract_three_view_slices sample_image sample_labels [1; 0; 0]%Z = Raise IndexError.
Proof.
  apply (three_views_prediction_not_clamped sample_image sample_labels 1 0 0).
  - unfold nonempty3; simpl; lia.
  - left. vm_compute. discriminate.
Defined.

(** X3. The crosshair of every view lies inside the view, and it marks a
    voxel of the image at the clamped coordinates: in the sagittal and in the
    coronal view the voxel (x, y, z); in the axial view the voxel whose first
    index is the second coordinate clamped to the first extent and whose
    second index is the first coordinate clamped to the second extent. *)
Theorem crosshair_marks_voxel
        (img : ndarray3 Q) (pred_vol : ndarray3 Z) (x y z : Z) (v : three_views) :
  nonempty3 img ->
  extract_three_view_slices img pred_vol [x; y; z] = Ok v ->
  let cx := Z.to_nat (np_clip x 0 (Z.of_nat (dim0 img) - 1)) in
  let cy := Z.to_nat (np_clip y 0 (Z.of_nat (dim1 img) - 1)) in
  let cz := Z.to_nat (np_clip z 0 (Z.of_nat (dim2 img) - 1)) in
  let '(sag, cor, axi) :=
    calculate_crosshair_positions (shape2 (sagittal_img v)) (shape2 (coronal_img v))
      (shape2 (axial_img v)) x y z in
  ((0 <= fst sag < Z.of_nat (rows (sagittal_img v)))%Z
   /\ (0 <= snd sag < Z.of_nat (cols (sagittal_img v)))%Z
   /\ (0 <= fst cor < Z.of_nat (rows (coronal_img v)))%Z
   /\ (0 <= snd cor < Z.of_nat (cols (coronal_img v)))%Z
   /\ (0 <= fst axi < Z.of_nat (rows (axial_img v)))%Z
   /\ (0 <= snd axi < Z.of_nat (cols (axial_img v)))%Z)
  /\ get2 0%Q (sagittal_img v) (Z.to_nat (fst sag)) (Z.to_nat (snd sag))
     = get3 0%Q img cx cy cz
  /\ get2 0%Q (coronal_img v) (Z.to_nat (fst cor)) (Z.to_nat (snd cor))
     = get3 0%Q img cx cy cz
  /\ get2 0%Q (axial_img v) (Z.to_nat (fst axi)) (Z.to_nat (snd axi))
     = get3 0%Q img (Z.to_nat (np_clip y 0 (Z.of_nat (dim0 img) - 1)))
                    (Z.to_nat (np_clip x 0 (Z.of_nat (dim1 img) - 1))) cz.
Proof.
  intros Hi Hv cx cy cz.
  destruct (three_views_images img pred_vol x y z v Hi Hv) as (Es & Ec & Ea).
  destruct Hi as (H0 & H1 & H2).
  rewrite Es, Ec, Ea. unfold calculate_crosshair_positions, shape2.
  cbn [rot90 take_axis0 take_axis1 take_axis2 rows cols fst snd].
  split; [unfold np_clip; lia|].
  fold (take_axis0 0%Q img cx). fold (take_axis1 0%Q img cy).
  fold (take_axis2 0%Q img cz).
  change (mk2 (dim2 img) (dim1 img)
            (tabulate2 (dim2 img) (dim1 img)
               (fun i j => get2 0%Q (take_axis0 0%Q img cx) j (dim2 img - 1 - i))))
    with (rot90 0%Q (take_axis0 0%Q img cx)).
  change (mk2 (dim2 img) (dim0 img)
            (tabulate2 (dim2 img) (dim0 img)
               (fun i j => get2 0%Q (take_axis1 0%Q img cy) j (dim2 img - 1 - i))))
    with (rot90 0%Q (take_axis1 0%Q img cy)).
  split; [|split].
  - rewrite get2_rot90 by (cbn [take_axis0 rows cols]; unfold np_clip; lia).
    cbn [take_axis0 cols].
    rewrite get2_take_axis0 by (unfold np_clip; lia).
    f_equal; unfold cy, cz, np_clip; lia.
  - rewrite get2_rot90 by (cbn [take_axis1 rows cols]; unfold np_clip; lia).
    cbn [take_axis1 cols].
    rewrite get2_take_axis1 by (unfold np_clip; lia).
    f_equal; unfold cx, cz, np_clip; lia.
  - rewrite get2_take_axis2 by (unfold np_clip; lia). reflexivity.
Qed.

Lemma crosshair_marks_voxel_witness :
  exists v,
    extract_three_view_slices sample_image
      (mk3 2 3 2 [0; 1; 2; 3; 0; 1; 2; 3; 0; 1; 2; 3]%Z) [1; 2; 0]%Z = Ok v
    /\ get2 0%Q (sagittal_img v) 1 2 = get3 0%Q sample_image 1 2 0
    /\ get2 0%Q (coronal_img v) 1 1 = get3 0%Q sample_image 1 2 0
    /\ get2 0%Q (axial_img v) 1 1 = get3 0%Q sample_image 1 1 0.
Proof.
  eexists. split; [reflexivity|].
  apply (crosshair_marks_voxel sample_image
           (mk3 2 3 2 [0; 1; 2; 3; 0; 1; 2; 3; 0; 1; 2; 3]%Z) 1 2 0).
  - unfold nonempty3; simpl; lia.
  - reflexivity.
Defined.

(** ** The sweep's slicer and its sampling *)

(** X4. At a position inside both volumes the slicer of the sweep, followed
    by the shape check, gives what [extract_slice_by_plane] gives there. The
    slicer does not clamp: at a position inside the image but beyond the
    prediction it raises [IndexError]. *)
Theorem slicer_agrees_with_extract
        (img : ndarray3 Q) (pred_vol : ndarray3 Z) (plane : string) (i : nat) :
  i < plane_extent img plane ->
  let slicer := snd (create_slicer_function img pred_vol plane) in
  fst (create_slicer_function img pred_vol plane) = plane_extent img plane
  /\ (i < plane_extent pred_vol plane ->
      (let* (slice_img, slice_pred) := slicer i in
       let* slice_pred := ensure_shapes_match slice_img slice_pred in
       Ok (slice_img, slice_pred))
      = extract_slice_by_plane img pred_vol plane (Z.of_nat i))
  /\ (plane_extent pred_vol plane <= i -> slicer i = Raise IndexError).
Proof.
  intros Hi slicer. unfold slicer. rewrite create_slicer_function_spec.
  cbn [fst snd]. split; [reflexivity|]. unfold slicer_of.
  rewrite (py_index_in_range (plane_extent img plane) (Z.of_nat i)) by lia.
  cbn [bind]. rewrite Nat2Z.id. split.
  - intros Hp.
    rewrite (py_index_in_range (plane_extent pred_vol plane) (Z.of_nat i)) by lia.
    cbn [bind]. rewrite Nat2Z.id.
    unfold extract_slice_by_plane. rewrite raw_slices_clamped by lia. cbv zeta.
    rewrite (np_clip_in_range (Z.of_nat i) (plane_extent img plane)) by lia.
    rewrite (np_clip_in_range (Z.of_nat i) (plane_extent pred_vol plane)) by lia.
    rewrite Nat2Z.id. reflexivity.
  - intros Hp. rewrite py_index_nonneg by lia.
    destruct (Z.ltb_spec (Z.of_nat i) (Z.of_nat (plane_extent pred_vol plane)));
      [lia | reflexivity].
Qed.

Lemma slicer_agrees_with_extract_witness :
  snd (create_slicer_function sample_image sample_labels "Axial") 1
  = Ok (take_axis2 0%Q sample_image 1, take_axis2 0%Z sample_labels 1)
  /\ snd (create_slicer_function sample_image sample_labels "Sagittal") 1
     = Raise IndexError.
Proof.
  split; [reflexivity|].
  apply (slicer_agrees_with_extract sample_image sample_labels "Sagittal" 1).
  - vm_compute. lia.
  - vm_compute. lia.
Defined.

Lemma ceil_div_bound (n q b : nat) :
  0 < q -> n < b * q + 1 -> (n + q - 1) / q <= b.
Proof.
  intros Hq Hn. apply Nat.lt_succ_r, Nat.Div0.div_lt_upper_bound. nia.
Qed.

(** X5. The sweep samples at most 119 positions in the axial plane and at
    most 199 in the other planes, whatever the number of slices; with fewer
    than 120 axial slices, or fewer than 200 slices in another plane, every
    slice is sampled. The frame rate is 15 for "Axial" and 13 otherwise. *)
Theorem sweep_frame_count_bounded (plane : string) (num_slices : nat) :
  let stride := fst (get_gif_animation_params plane num_slices) in
  let fps := snd (get_gif_animation_params plane num_slices) in
  let idxs := py_range num_slices stride in
  let axial := (plane =? "Axial")%string in
  List.length idxs = (num_slices + stride - 1) / stride
  /\ List.length idxs <= (if axial then 119 else 199)
  /\ (num_slices < (if axial then 120 else 200) -> idxs = seq 0 num_slices)
  /\ fps = (if axial then 15 else 13).
Proof.
  intros stride fps idxs axial. unfold idxs.
  rewrite py_range_length. split; [reflexivity|].
  unfold stride, fps, axial, get_gif_animation_params.
  destruct (plane =? "Axial")%string; cbn [fst snd].
  - split; [|split; [|reflexivity]].
    + destruct (Nat.max_spec 1 (num_slices / 60)) as [[Hlt ->]|[Hle ->]].
      * apply ceil_div_bound; [lia|].
        pose proof (Nat.div_mod_eq num_slices 60) as Hdm.
        pose proof (Nat.mod_upper_bound num_slices 60). lia.
      * assert (num_slices / 60 = 0 \/ num_slices / 60 = 1) as [Hq|Hq] by lia.
        -- apply Nat.div_small_iff in Hq; [|lia].
           rewrite Nat.add_sub, Nat.div_1_r. lia.
        -- pose proof (Nat.div_mod_eq num_slices 60) as Hdm.
           pose proof (Nat.mod_upper_bound num_slices 60).
           rewrite Nat.add_sub, Nat.div_1_r. lia.
    + intros Hn.
      assert (Hs : Nat.max 1 (num_slices / 60) = 1).
      { assert (num_slices / 60 < 2) by (apply Nat.Div0.div_lt_upper_bound; lia). lia. }
      rewrite Hs. unfold py_range. rewrite Nat.add_sub, Nat.div_1_r.
      rewrite <- (map_id (seq 0 num_slices)) at 2. apply map_ext. intros. lia.
  - split; [|split; [|reflexivity]].
    + destruct (Nat.max_spec 1 (num_slices / 100)) as [[Hlt ->]|[Hle ->]].
      * apply ceil_div_bound; [lia|].
        pose proof (Nat.div_mod_eq num_slices 100) as Hdm.
        pose proof (Nat.mod_upper_bound num_slices 100). lia.
      * assert (num_slices / 100 = 0 \/ num_slices / 100 = 1) as [Hq|Hq] by lia.
        -- apply Nat.div_small_iff in Hq; [|lia].
           rewrite Nat.add_sub, Nat.div_1_r. lia.
        -- pose proof (Nat.div_mod_eq num_slices 100) as Hdm.
           pose proof (Nat.mod_upper_bound num_slices 100).
           rewrite Nat.add_sub, Nat.div_1_r. lia.
    + intros Hn.
      assert (Hs : Nat.max 1 (num_slices / 100) = 1).
      { assert (num_slices / 100 < 2) by (apply Nat.Div0.div_lt_upper_bound; lia). lia. }
      rewrite Hs. unfold py_range. rewrite Nat.add_sub, Nat.div_1_r.
      rewrite <- (map_id (seq 0 num_slices)) at 2. apply map_ext. intros. lia.
Qed.

(** X6. The sampled positions are the multiples of the stride below the
    number of slices, in increasing order; every slice lies less than one
    stride after a sampled position. *)
Theorem sweep_samples_cover (plane : string) (num_slices : nat) :
  let stride := fst (get_gif_animation_params plane num_slices) in
  let idxs := py_range num_slices stride in
  (forall k, k < List.length idxs -> nth k idxs 0 = k * stride)
  /\ (forall s, In s idxs -> s < num_slices)
  /\ (forall j, j < num_slices ->
        exists s, In s idxs /\ s <= j < s + stride).
Proof.
  intros stride idxs.
  pose proof (stride_positive plane num_slices) as Hs. fold stride in Hs.
  split; [|split].
  - intros k Hk. unfold idxs in *. rewrite py_range_length in Hk.
    unfold py_range.
    rewrite (nth_map_default (fun k => k * stride) _ _ 0 0) by reflexivity.
    rewrite seq_nth by exact Hk. reflexivity.
  - intros s. apply py_range_below, Hs.
  - intros j Hj. exists (j / stride * stride). split.
    + unfold idxs, py_range. apply in_map_iff. exists (j / stride).
      split; [reflexivity|]. apply in_seq. split; [lia|]. cbn [plus].
      replace (num_slices + stride - 1) with ((num_slices - 1) + 1 * stride) by lia.
      rewrite Nat.div_add by lia.
      assert (j / stride <= (num_slices - 1) / stride)
        by (apply Nat.Div0.div_le_mono; lia).
      lia.
    + pose proof (Nat.div_mod_eq j stride) as Hdm.
      pose proof (Nat.mod_upper_bound j stride). lia.
Qed.

Lemma sweep_frame_count_bounded_witness :
  py_range 59 (fst (get_gif_animation_params "Axial" 59)) = seq 0 59.
Proof.
  apply (sweep_frame_count_bounded "Axial" 59). vm_compute. lia.
Defined.

Lemma sweep_samples_cover_witness :
  exists s,
    In s (py_range 155 (fst (get_gif_animation_params "Axial" 155)))
    /\ s <= 77 < s + fst (get_gif_animation_params "Axial" 155).
Proof.
  apply (sweep_samples_cover "Axial" 155). lia.
Defined.

(** ** Metrics *)

(** X7. [get_selected_class_metrics] on the table of
    [calculate_class_metrics] never raises; it returns an entry exactly when
    the selected class reads as the integer 1, 2 or 3, and then the entry of
    that class. "All", "None", "0", other numbers and text that is not a
    number give [None]. *)
Theorem get_selected_class_metrics_spec
        (pred_vol : ndarray3 Z) (voxel_volume_mm3 : Q) (selected_class : string)
        (m : metrics) :
  get_selected_class_metrics (calculate_class_metrics pred_vol voxel_volume_mm3)
    selected_class = Some m
  <-> exists class_id,
        py_int selected_class = Ok class_id
        /\ (class_id = 1 \/ class_id = 2 \/ class_id = 3)%Z
        /\ m = class_metrics_of pred_vol voxel_volume_mm3 class_id.
Proof.
  unfold get_selected_class_metrics.
  destruct (String.eqb_spec selected_class "All") as [->|_]; cbn [orb].
  { split; [discriminate | intros (c & H & _); discriminate H]. }
  destruct (String.eqb_spec selected_class "None") as [->|_]; cbn [orb].
  { split; [discriminate | intros (c & H & _); discriminate H]. }
  destruct (String.eqb_spec selected_class "0") as [->|_]; cbn [orb].
  { split; [discriminate|]. intros (c & H & Hc & _). injection H as <-. lia. }
  destruct (py_int selected_class) as [c|e].
  - unfold calculate_class_metrics. cbn [map dict_get]. split.
    + intros H. exists c. split; [reflexivity|].
      destruct (Z.eqb_spec 1 c) as [E1|E1]; [split; [auto | congruence]|].
      destruct (Z.eqb_spec 2 c) as [E2|E2]; [split; [auto | congruence]|].
      destruct (Z.eqb_spec 3 c) as [E3|E3]; [split; [auto | congruence]|].
      discriminate H.
    + intros (c' & [= <-] & [-> | [-> | ->]] & ->); reflexivity.
  - split; [discriminate | intros (c & H & _); discriminate H].
Qed.

Lemma get_selected_class_metrics_spec_witness :
  get_selected_class_metrics (calculate_class_metrics sample_canonical 1%Q) " 3 "
  = Some (class_metrics_of sample_canonical 1%Q 3).
Proof.
  apply (get_selected_class_metrics_spec sample_canonical 1%Q " 3 ").
  exists 3%Z. repeat split. right; right; reflexivity.
Defined.

Lemma np_sum_mask_bounds (mask : list bool) :
  (0 <= np_sum_mask mask <= Z.of_nat (List.length mask))%Z.
Proof.
  induction mask as [|b mask IH]; cbn [np_sum_mask List.length]; [lia|].
  destruct b; lia.
Qed.

Lemma class_counts_general (l : list Z) :
  (np_sum_mask (map (fun v => (v =? 1)%Z) l)
   + np_sum_mask (map (fun v => (v =? 2)%Z) l)
   + np_sum_mask (map (fun v => (v =? 3)%Z) l)
   + np_sum_mask (map (fun v => (v >? 3)%Z) l)
   = np_sum_mask (map (fun v => (v >? 0)%Z) l))%Z.
Proof.
  induction l as [|x l IH]; cbn [map np_sum_mask]; [reflexivity|].
  destruct (Z.eqb_spec x 1), (Z.eqb_spec x 2), (Z.eqb_spec x 3),
    (Z.gtb_spec x 3), (Z.gtb_spec x 0); lia.
Qed.

(** X8. For every well-formed label volume, canonical or not: each class
    count is between 0 and the tumour count, the tumour count is at most the
    number of voxels, and the three class counts together with the number of
    labels above 3 make up the tumour count. *)
Theorem voxel_counts_ordered
        (pred_vol : ndarray3 Z) (voxel_volume_mm3 : Q) (class_id : Z) :
  wf3 pred_vol ->
  (class_id = 1 \/ class_id = 2 \/ class_id = 3)%Z ->
  let count c := voxel_count (class_metrics_of pred_vol voxel_volume_mm3 c) in
  let total := voxel_count (calculate_total_tumor_metrics pred_vol voxel_volume_mm3) in
  (0 <= count class_id <= total)%Z
  /\ (total <= size3 pred_vol)%Z
  /\ (count 1 + count 2 + count 3
      + np_sum_mask (map (fun v => (v >? 3)%Z) (cells3 pred_vol)) = total)%Z.
Proof.
  intros Hwf Hc count total. unfold count, total, class_metrics_of,
    calculate_total_tumor_metrics. cbn [voxel_count].
  pose proof (class_counts_general (cells3 pred_vol)) as Hg.
  pose proof (np_sum_mask_bounds (map (fun v => (v =? 1)%Z) (cells3 pred_vol))).
  pose proof (np_sum_mask_bounds (map (fun v => (v =? 2)%Z) (cells3 pred_vol))).
  pose proof (np_sum_mask_bounds (map (fun v => (v =? 3)%Z) (cells3 pred_vol))).
  pose proof (np_sum_mask_bounds (map (fun v => (v >? 3)%Z) (cells3 pred_vol))).
  pose proof (np_sum_mask_bounds (map (fun v => (v >? 0)%Z) (cells3 pred_vol))) as Ht.
  rewrite length_map in Ht. unfold wf3 in Hwf. rewrite Hwf in Ht.
  unfold size3. split; [|split; [lia | exact Hg]].
  destruct Hc as [-> | [-> | ->]]; lia.
Qed.

Lemma voxel_counts_ordered_witness :
  (0 <= voxel_count (class_metrics_of sample_labels 1%Q 2)
   <= voxel_count (calculate_total_tumor_metrics sample_labels 1%Q))%Z.
Proof.
  apply (voxel_counts_ordered sample_labels 1%Q 2).
  - reflexivity.
  - right; left; reflexivity.
Defined.

Lemma round_half_even_between (a b : Z) (q : Q) :
  (inject_Z a <= q)%Q -> (q <= inject_Z b)%Q ->
  (a <= round_half_even q <= b)%Z.
Proof.
  intros Ha Hb. unfold round_half_even.
  assert (Hfa : (a <= Qfloor q)%Z).
  { rewrite <- (Qfloor_Z a). apply Qfloor_resp_le. exact Ha. }
  assert (Hfb : (Qfloor q <= b)%Z).
  { rewrite <- (Qfloor_Z b). apply Qfloor_resp_le. exact Hb. }
  assert (Hstrict : (inject_Z (Qfloor q) < q)%Q -> (Qfloor q + 1 <= b)%Z).
  { intros Hlt. assert (Qfloor q < b)%Z; [|lia].
    rewrite Zlt_Qlt. eapply Qlt_le_trans; eassumption. }
  destruct (q - inject_Z (Qfloor q) ?= 1 # 2)%Q eqn:Hc.
  - apply Qeq_alt in Hc.
    assert (Hlt : (inject_Z (Qfloor q) < q)%Q) by lra.
    apply Hstrict in Hlt. destruct (Z.even (Qfloor q)); lia.
  - lia.
  - apply Qgt_alt in Hc.
    assert (Hlt : (inject_Z (Qfloor q) < q)%Q) by lra.
    apply Hstrict in Hlt. lia.
Qed.

Lemma py_round2_between (x : Q) :
  (0 <= x)%Q -> (x <= 100)%Q -> (0 <= py_round2 x)%Q /\ (py_round2 x <= 100)%Q.
Proof.
  intros H0 H1. unfold py_round2.
  destruct (round_half_even_between 0 10000 (x * 100)) as [Hl Hu].
  - change (inject_Z 0) with 0%Q. lra.
  - change (inject_Z 10000) with 10000%Q. lra.
  - rewrite Zle_Qle in Hl, Hu.
    change (inject_Z 0) with 0%Q in Hl.
    change (inject_Z 10000) with 10000%Q in Hu.
    split.
    + apply Qle_shift_div_l; lra.
    + apply Qle_shift_div_r; lra.
Qed.

Lemma py_round2_nonneg (x : Q) : (0 <= x)%Q -> (0 <= py_round2 x)%Q.
Proof.
  intros H0. unfold py_round2.
  assert (Hl : (0 <= round_half_even (x * 100))%Z).
  { unfold round_half_even.
    assert (0 <= Qfloor (x * 100))%Z.
    { rewrite <- (Qfloor_Z 0). apply Qfloor_resp_le.
      change (inject_Z 0) with 0%Q. lra. }
    destruct (x * 100 - inject_Z (Qfloor (x * 100)) ?= 1 # 2)%Q;
      [destruct (Z.even _)|..]; lia. }
  rewrite Zle_Qle in Hl. change (inject_Z 0) with 0%Q in Hl.
  apply Qle_shift_div_l; lra.
Qed.

Lemma share_between (count total : Z) :
  (0 <= count <= total)%Z ->
  let share := if (total >? 0)%Z
               then (inject_Z count / inject_Z total * 100)%Q else 0%Q in
  (0 <= share)%Q /\ (share <= 100)%Q.
Proof.
  intros [Hc Ht] share. unfold share.
  destruct (Z.gtb_spec total 0) as [Hpos|_]; [|split; lra].
  assert (Hq0 : (0 <= inject_Z count)%Q).
  { change 0%Q with (inject_Z 0). rewrite <- Zle_Qle. exact Hc. }
  assert (Hqt : (inject_Z count <= inject_Z total)%Q).
  { rewrite <- Zle_Qle. exact Ht. }
  assert (Hqp : (0 < inject_Z total)%Q).
  { change 0%Q with (inject_Z 0). rewrite <- Zlt_Qlt. lia. }
  assert (Hl : (0 <= inject_Z count / inject_Z total)%Q).
  { apply Qle_shift_div_l; [exact Hqp | lra]. }
  assert (Hu : (inject_Z count / inject_Z total <= 1)%Q).
  { apply Qle_shift_div_r; [exact Hqp | lra]. }
  split; lra.
Qed.

(** X9. The reported figures stay in range: for a well-formed label volume the
    percentage of every class and of the whole tumour lies between 0 and 100
    (it is 0, with no division, for a volume without voxels), and with a
    non-negative voxel volume the reported volumes in mm3 and cm3 are never
    negative. *)
Theorem metrics_in_range
        (pred_vol : ndarray3 Z) (voxel_volume_mm3 : Q) (class_id : Z) :
  wf3 pred_vol ->
  (class_id = 1 \/ class_id = 2 \/ class_id = 3)%Z ->
  let class := class_metrics_of pred_vol voxel_volume_mm3 class_id in
  let total := calculate_total_tumor_metrics pred_vol voxel_volume_mm3 in
  ((0 <= percentage class)%Q /\ (percentage class <= 100)%Q)
  /\ ((0 <= percentage total)%Q /\ (percentage total <= 100)%Q)
  /\ (size3 pred_vol = 0%Z ->
      percentage class = py_round2 0 /\ percentage total = py_round2 0)
  /\ ((0 <= voxel_volume_mm3)%Q ->
      (0 <= volume_mm3 class)%Q /\ (0 <= volume_cm3 class)%Q
      /\ (0 <= volume_mm3 total)%Q /\ (0 <= volume_cm3 total)%Q).
Proof.
  intros Hwf Hc class total.
  pose proof (np_sum_mask_bounds
                (map (fun v => (v =? class_id)%Z) (cells3 pred_vol))) as Hk.
  pose proof (np_sum_mask_bounds
                (map (fun v => (v >? 0)%Z) (cells3 pred_vol))) as Ht.
  rewrite length_map in Hk, Ht. unfold wf3 in Hwf. rewrite Hwf in Hk, Ht.
  fold (size3 pred_vol) in Hk, Ht.
  unfold class, total, class_metrics_of, calculate_total_tumor_metrics.
  cbn [percentage volume_mm3 volume_cm3].
  split; [|split; [|split]].
  - apply py_round2_between; apply (share_between _ _ Hk).
  - apply py_round2_between; apply (share_between _ _ Ht).
  - intros ->. split; reflexivity.
  - intros Hv.
    assert (Hqk : (0 <= inject_Z (np_sum_mask
               (map (fun v => (v =? class_id)%Z) (cells3 pred_vol))))%Q).
    { change 0%Q with (inject_Z 0). rewrite <- Zle_Qle. lia. }
    assert (Hqt : (0 <= inject_Z (np_sum_mask
               (map (fun v => (v >? 0)%Z) (cells3 pred_vol))))%Q).
    { change 0%Q with (inject_Z 0). rewrite <- Zle_Qle. lia. }
    pose proof (Qmult_le_0_compat _ _ Hqk Hv) as Hpk.
    pose proof (Qmult_le_0_compat _ _ Hqt Hv) as Hpt.
    repeat split; apply py_round2_nonneg;
      try assumption; apply Qle_shift_div_l; lra.
Qed.

Lemma metrics_in_range_witness :
  (0 <= percentage (class_metrics_of sample_labels 1%Q 2))%Q
  /\ (percentage (class_metrics_of sample_labels 1%Q 2) <= 100)%Q.
Proof.
  assert (Hwf : wf3 sample_labels) by reflexivity.
  assert (Hc : (2 = 1 \/ 2 = 2 \/ 2 = 3)%Z) by (right; left; reflexivity).
  exact (proj1 (metrics_in_range sample_labels 1%Q 2 Hwf Hc)).
Defined.

(** ** Display normalisation *)

Lemma Qtruncate_nonneg (q : Q) : (0 <= q)%Q -> Qtruncate q = Qfloor q.
Proof.
  destruct q as [n d]. unfold Qle, Qtruncate, Qfloor. cbn [Qnum Qden].
  intros H. apply Z.quot_div_nonneg; lia.
Qed.

Lemma np_min_le_first (rest : list Q) (x : Q) : (np_min x rest <= x)%Q.
Proof.
  unfold np_min. revert x.
  induction rest as [|y rest IH]; intros x; cbn [fold_left].
  - apply Qle_refl.
  - eapply Qle_trans; [apply IH | apply Q.le_min_l].
Qed.

Lemma np_min_le (rest : list Q) (x v : Q) :
  In v (x :: rest) -> (np_min x rest <= v)%Q.
Proof.
  unfold np_min. revert x.
  induction rest as [|y rest IH]; intros x [<- | Hin]; cbn [fold_left].
  - apply Qle_refl.
  - destruct Hin.
  - eapply Qle_trans; [apply (np_min_le_first rest) | apply Q.le_min_l].
  - destruct Hin as [<- | Hin].
    + eapply Qle_trans; [apply (np_min_le_first rest) | apply Q.le_min_r].
    + apply IH. right. exact Hin.
Qed.

Lemma np_min_attained (rest : list Q) (x : Q) : In (np_min x rest) (x :: rest).
Proof.
  unfold np_min. revert x.
  induction rest as [|y rest IH]; intros x; cbn [fold_left].
  - left. reflexivity.
  - destruct (IH (Qmin x y)) as [H | H].
    + rewrite <- H. unfold Qmin, GenericMinMax.gmin.
      destruct (x ?= y)%Q; [left | left | right; left]; reflexivity.
    + right. right. exact H.
Qed.

Lemma np_max_ge_first (rest : list Q) (x : Q) : (x <= np_max x rest)%Q.
Proof.
  unfold np_max. revert x.
  induction rest as [|y rest IH]; intros x; cbn [fold_left].
  - apply Qle_refl.
  - eapply Qle_trans; [apply Q.le_max_l | apply IH].
Qed.

Lemma np_max_ge (rest : list Q) (x v : Q) :
  In v (x :: rest) -> (v <= np_max x rest)%Q.
Proof.
  unfold np_max. revert x.
  induction rest as [|y rest IH]; intros x [<- | Hin]; cbn [fold_left].
  - apply Qle_refl.
  - destruct Hin.
  - eapply Qle_trans; [apply Q.le_max_l | apply (np_max_ge_first rest)].
  - destruct Hin as [<- | Hin].
    + eapply Qle_trans; [apply Q.le_max_r | apply (np_max_ge_first rest)].
    + apply IH. right. exact Hin.
Qed.

(** X10. [normalize_image_slice] rejects an empty slice with the ValueError of
    the reduction, and on any other slice returns an image of the same shape
    whose pixels are a function of the input value that stays within 0..255
    (so the cast to uint8 never wraps), keeps the order of the values, and
    sends every smallest value, hence every value of a constant slice, to
    0. *)
Theorem normalize_image_slice_spec (slice_data : ndarray2 Q) :
  (cells2 slice_data = [] ->
   exists msg, normalize_image_slice slice_data = Raise (ValueError msg))
  /\ (cells2 slice_data <> [] ->
      exists (out : ndarray2 Z) (level : Q -> Z),
        normalize_image_slice slice_data = Ok out
        /\ shape2 out = shape2 slice_data
        /\ cells2 out = map level (cells2 slice_data)
        /\ (forall v, In v (cells2 slice_data) -> (0 <= level v <= 255)%Z)
        /\ (forall v w, In v (cells2 slice_data) -> In w (cells2 slice_data) ->
                        (v <= w)%Q -> (level v <= level w)%Z)
        /\ (forall v, In v (cells2 slice_data) ->
                      (forall w, In w (cells2 slice_data) -> (v <= w)%Q) ->
                      level v = 0%Z)).
Proof.
  unfold normalize_image_slice. split.
  - intros ->. eexists. reflexivity.
  - intros Hne. destruct (cells2 slice_data) as [|x rest] eqn:Hcells;
      [contradiction|].
    set (lo := np_min x rest). set (hi := np_max x rest).
    set (span := (hi - lo + (1 # 100000000))%Q).
    assert (Hlo : forall v, In v (x :: rest) -> (lo <= v)%Q)
      by (intros v; apply np_min_le).
    assert (Hhi : forall v, In v (x :: rest) -> (v <= hi)%Q)
      by (intros v; apply np_max_ge).
    assert (Hspan : (0 < span)%Q).
    { unfold span. pose proof (Hlo x (or_introl eq_refl)).
      pose proof (Hhi x (or_introl eq_refl)). lra. }
    assert (Hscaled : forall v, In v (x :: rest) ->
              (0 <= (v - lo) / span * 255)%Q /\ ((v - lo) / span * 255 <= 255)%Q).
    { intros v Hv. pose proof (Hlo v Hv). pose proof (Hhi v Hv).
      assert (0 <= (v - lo) / span)%Q by (apply Qle_shift_div_l; lra).
      assert ((v - lo) / span <= 1)%Q
        by (apply Qle_shift_div_r; [exact Hspan | unfold span; lra]).
      split; lra. }
    assert (Hlevel : forall v, In v (x :: rest) ->
              wrap_uint8 (Qtruncate ((v - lo) / span * 255))
              = Qfloor ((v - lo) / span * 255)
              /\ (0 <= Qfloor ((v - lo) / span * 255) <= 255)%Z).
    { intros v Hv. destruct (Hscaled v Hv) as [H0 H1].
      assert (Hr : (0 <= Qfloor ((v - lo) / span * 255) <= 255)%Z).
      { split.
        - rewrite <- (Qfloor_Z 0). apply Qfloor_resp_le. exact H0.
        - rewrite <- (Qfloor_Z 255). apply Qfloor_resp_le. exact H1. }
      split; [|exact Hr].
      rewrite (Qtruncate_nonneg _ H0). unfold wrap_uint8.
      apply Z.mod_small. lia. }
    exists (mk2 (rows slice_data) (cols slice_data)
              (map (fun v => wrap_uint8 (Qtruncate ((v - lo) / span * 255)))
                   (x :: rest))),
           (fun v => wrap_uint8 (Qtruncate ((v - lo) / span * 255))).
    split; [reflexivity|]. split; [reflexivity|]. split; [reflexivity|].
    split; [|split].
    + intros v Hv. destruct (Hlevel v Hv) as [-> Hr]. exact Hr.
    + intros v w Hv Hw Hvw.
      destruct (Hlevel v Hv) as [-> _]. destruct (Hlevel w Hw) as [-> _].
      apply Qfloor_resp_le.
      assert ((v - lo) / span <= (w - lo) / span)%Q.
      { apply Qle_shift_div_l; [exact Hspan|].
        setoid_replace ((v - lo) / span * span)%Q with (v - lo)%Q
          by (field; lra).
        lra. }
      lra.
    + intros v Hv Hmin. destruct (Hlevel v Hv) as [-> _].
      pose proof (Hmin lo (np_min_attained rest x)) as Hle.
      pose proof (Hlo v Hv) as Hge.
      assert (Hz : ((v - lo) / span * 255 == 0)%Q).
      { assert (Hd : (v - lo == 0)%Q) by lra. rewrite Hd. field. lra. }
      rewrite Hz. reflexivity.
Qed.

Lemma normalize_image_slice_spec_witness :
  exists (out : ndarray2 Z) (level : Q -> Z),
    normalize_image_slice (mk2 1 3 [10; 20; 30]%Q) = Ok out
    /\ shape2 out = (1, 3)
    /\ cells2 out = map level [10; 20; 30]%Q
    /\ (forall v, In v [10; 20; 30]%Q -> (0 <= level v <= 255)%Z)
    /\ (forall v w, In v [10; 20; 30]%Q -> In w [10; 20; 30]%Q ->
                    (v <= w)%Q -> (level v <= level w)%Z)
    /\ (forall v, In v [10; 20; 30]%Q ->
                  (forall w, In w [10; 20; 30]%Q -> (v <= w)%Q) ->
                  level v = 0%Z).
Proof.
  apply (normalize_image_slice_spec (mk2 1 3 [10; 20; 30]%Q)).
  discriminate.
Defined.

(** ** When the mask layer is drawn *)

Lemma slice_overlay_drawn_spec (m : ndarray2 Z) :
  slice_overlay_drawn m = true <-> exists v, In v (cells2 m) /\ v <> 0%Z.
Proof.
  unfold slice_overlay_drawn, np_all_zero.
  induction (cells2 m) as [|x l IH]; cbn [forallb].
  - split; [discriminate | intros (v & [] & _)].
  - destruct (Z.eqb_spec x 0) as [->|Hx]; cbn [andb negb].
    + rewrite IH. split.
      * intros (v & Hv & Hnz). exists v. split; [right|]; assumption.
      * intros (v & [<- | Hv] & Hnz); [contradiction|]. exists v. split; assumption.
    + split; [|reflexivity]. intros _. exists x. split; [left; reflexivity|exact Hx].
Qed.

Lemma three_views_overlay_same (m : ndarray2 Z) :
  three_views_overlay_drawn m = slice_overlay_drawn m.
Proof.
  unfold three_views_overlay_drawn, slice_overlay_drawn, masked_count, np_all_zero.
  induction (cells2 m) as [|x l IH]; cbn [filter forallb]; [reflexivity|].
  destruct (Z.eqb_spec x 0) as [->|Hx]; cbn [negb andb List.length].
  - exact IH.
  - reflexivity.
Qed.

(** X11. After [filter_prediction_by_class], the single-slice renderer draws
    the mask layer exactly when the unfiltered slice holds a non-zero label
    that the filter keeps: any non-zero label for "All", the label the text
    reads as for a number, none for "None" or a number that reads as 0. The
    three-view renderer decides by counting unmasked cells and always agrees
    with it. *)
Theorem overlay_drawn_iff
        (slice_pred : ndarray2 Z) (selected_class : string) (filtered : ndarray2 Z) :
  filter_prediction_by_class slice_pred selected_class = Ok filtered ->
  (slice_overlay_drawn filtered = true
   <-> exists v, In v (cells2 slice_pred) /\ v <> 0%Z
                 /\ (selected_class = "All"%string \/ py_int selected_class = Ok v))
  /\ three_views_overlay_drawn filtered = slice_overlay_drawn filtered.
Proof.
  intros Hf. split; [|apply three_views_overlay_same].
  rewrite slice_overlay_drawn_spec.
  unfold filter_prediction_by_class in Hf.
  destruct (String.eqb_spec selected_class "All") as [->|Hall].
  { injection Hf as <-. split.
    - intros (v & Hv & Hnz). exists v. auto.
    - intros (v & Hv & Hnz & _). exists v. auto. }
  destruct (String.eqb_spec selected_class "None") as [->|Hnone].
  { injection Hf as <-. unfold zeros_like. cbn [cells2]. split.
    - intros (v & Hv & Hnz). apply in_map_iff in Hv.
      destruct Hv as (w & <- & _). contradiction.
    - intros (v & _ & _ & [H | H]); discriminate H. }
  destruct (py_int selected_class) as [c|e]; [|discriminate Hf].
  cbn [bind] in Hf. injection Hf as <-. unfold np_where_eq. cbn [cells2]. split.
  - intros (v & Hv & Hnz). apply in_map_iff in Hv. destruct Hv as (w & Hw & Hin).
    destruct (Z.eqb_spec w c) as [Hwc|Hwc]; [|congruence].
    subst v w. exists c. auto.
  - intros (v & Hv & Hnz & [H | H]); [contradiction|].
    injection H as ->. exists v. split; [|exact Hnz].
    apply in_map_iff. exists v. rewrite Z.eqb_refl. auto.
Qed.

Lemma overlay_drawn_iff_witness :
  (slice_overlay_drawn (np_where_eq (mk2 1 3 [0; 2; 1]%Z) 2) = true
   <-> exists v, In v [0; 2; 1]%Z /\ v <> 0%Z
                 /\ ("2"%string = "All"%string \/ py_int "2" = Ok v))
  /\ three_views_overlay_drawn (np_where_eq (mk2 1 3 [0; 2; 1]%Z) 2)
     = slice_overlay_drawn (np_where_eq (mk2 1 3 [0; 2; 1]%Z) 2).
Proof.
  apply (overlay_drawn_iff (mk2 1 3 [0; 2; 1]%Z) "2"). reflexivity.
Defined.

(** ** Voxel volume *)

Lemma Qabs_zero_iff (x : Q) : (Qabs x == 0)%Q <-> (x == 0)%Q.
Proof.
  split.
  - apply Qabs_case; intros; lra.
  - intros ->. reflexivity.
Qed.

(** X12. The voxel volume that [get_analysis] hands to the metrics: for a
    4 x 4 affine the spacing is the absolute value of the three leading
    diagonal entries and the volume their product. It is never negative, it is
    the absolute determinant of the upper-left 3 x 3 block when that block is
    diagonal, and it is 0 exactly when a diagonal entry is 0, whatever the
    entries off the diagonal are. *)
Theorem voxel_volume_of_spec (affine : matrix) :
  is_4x4 affine = true ->
  let d0 := mat_get affine 0 0 in
  let d1 := mat_get affine 1 1 in
  let d2 := mat_get affine 2 2 in
  voxel_spacing affine = [Qabs d0; Qabs d1; Qabs d2]
  /\ (voxel_volume_of affine == Qabs (d0 * d1 * d2))%Q
  /\ (0 <= voxel_volume_of affine)%Q
  /\ ((voxel_volume_of affine == 0)%Q <-> (d0 == 0 \/ d1 == 0 \/ d2 == 0)%Q)
  /\ ((mat_get affine 0 1 == 0 /\ mat_get affine 0 2 == 0
       /\ mat_get affine 1 0 == 0 /\ mat_get affine 1 2 == 0
       /\ mat_get affine 2 0 == 0 /\ mat_get affine 2 1 == 0)%Q ->
      (voxel_volume_of affine == Qabs (det3 (block3 affine)))%Q).
Proof.
  intros H4 d0 d1 d2.
  destruct (is_4x4_entries affine H4)
    as (a00 & a01 & a02 & a03 & a10 & a11 & a12 & a13
        & a20 & a21 & a22 & a23 & a30 & a31 & a32 & a33 & ->).
  assert (Hv : (voxel_volume_of
                  [[a00; a01; a02; a03]; [a10; a11; a12; a13];
                   [a20; a21; a22; a23]; [a30; a31; a32; a33]]
                == Qabs (a00 * a11 * a22))%Q).
  { unfold voxel_volume_of, voxel_spacing, np_diag, block3, np_prod, mat_get.
    cbn [map firstn seq List.length hd Nat.min nth fold_right].
    rewrite !Qabs_Qmult. ring. }
  unfold d0, d1, d2, mat_get. cbn [nth].
  split; [reflexivity|]. split; [exact Hv|]. split; [|split].
  - rewrite Hv. apply Qabs_nonneg.
  - rewrite Hv, Qabs_zero_iff. split.
    + intros H. apply Qmult_integral in H. destruct H as [H | H]; [|auto].
      apply Qmult_integral in H. destruct H; auto.
    + intros [H | [H | H]]; rewrite H; ring.
  - intros (H01 & H02 & H10 & H12 & H20 & H21). rewrite Hv.
    unfold det3, block3, mat_get. cbn [map firstn nth].
    rewrite H01, H02, H10, H12, H20, H21.
    apply Qabs_wd. ring.
Qed.

Lemma voxel_volume_of_spec_witness :
  voxel_spacing sample_affine
  = [Qabs (mat_get sample_affine 0 0); Qabs (mat_get sample_affine 1 1);
     Qabs (mat_get sample_affine 2 2)].
Proof.
  apply (voxel_volume_of_spec sample_affine). reflexivity.
Defined.

(** ** World and voxel coordinates *)






(** ** The cache along a run of requests *)

Section CacheProperties.
Variable predict_segmentation : nat -> string -> result (ndarray Q).
Variable resize_predicted_seg : ndarray Q -> result (ndarray4 Q).
Variable patient_root_of : string -> string.

Notation "'gpv'" :=
  (get_prediction_volume predict_segmentation resize_predicted_seg patient_root_of).
Notation "'fetch'" := (fetch_prediction predict_segmentation patient_root_of).
Notation "'coherent'" := (cache_coherent predict_segmentation patient_root_of).

Lemma fetch_prediction_coherent (w : world) (patient_path : string)
      (w2 : world) (fetched : result (option (ndarray Q))) :
  coherent w -> fetch w patient_path = (w2, fetched) ->
  coherent w2
  /\ model_calls w <= model_calls w2
  /\ forall raw,
       fetched = Ok (Some raw) ->
       current_patient (SESSION_STATE w2) = Some patient_path
       /\ exists n, n < model_calls w2
                    /\ predict_segmentation n (patient_root_of patient_path) = Ok raw.
Proof.
  intros Hc. unfold fetch_prediction, predict_btn_click.
  destruct (option_string_eqb (current_patient (SESSION_STATE w)) patient_path)
    eqn:Ecp; cbn [negb].
  - apply option_string_eqb_spec in Ecp.
    destruct (pred_gen_for_this_patient (SESSION_STATE w)) eqn:Eg; cbn [negb].
    + intros [= <- <-]. split; [exact Hc|]. split; [lia|].
      intros raw Hraw. split; [exact Ecp|].
      unfold cache_coherent in Hc.
      destruct (Hc Eg) as (p & n & raw' & Hp & Hs & Hn & Hm).
      rewrite Ecp in Hp. injection Hp as <-.
      rewrite Hs in Hraw. injection Hraw as <-. exists n. auto.
    + destruct (predict_segmentation (model_calls w) (patient_root_of patient_path))
        as [raw|e] eqn:Em.
      * intros [= <- <-]. split; [|split; [cbn; lia|]].
        -- intros _. exists patient_path, (model_calls w), raw. cbn. auto.
        -- intros raw' [= <-]. split; [exact Ecp|].
           exists (model_calls w). cbn. auto.
      * intros [= <- <-]. split; [|split; [cbn; lia | discriminate]].
        unfold cache_coherent. cbn. rewrite Eg. discriminate.
  - cbn [pred_gen_for_this_patient SESSION_STATE set_current_patient
           patient_has_changed_update_token negb model_calls].
    destruct (predict_segmentation (model_calls w) (patient_root_of patient_path))
      as [raw|e] eqn:Em.
    + intros [= <- <-]. split; [|split; [cbn; lia|]].
      * intros _. exists patient_path, (model_calls w), raw. cbn. auto.
      * intros raw' [= <-]. split; [reflexivity|].
        exists (model_calls w). cbn. auto.
    + intros [= <- <-]. split; [|split; [cbn; lia | discriminate]].
      unfold cache_coherent. cbn. discriminate.
Qed.

(** X14. No prediction is served for the wrong patient. The state after
    [init_session_state_variables] is coherent, every call of
    [get_prediction_volume] keeps the cache coherent whether it returns or
    raises, never lowers the count of inference calls, and a volume it
    returns for a patient is the normalisation of a prediction that inference
    produced for that very patient, who is then the current patient. *)
Theorem cache_serves_requested_patient :
  coherent fresh_world
  /\ forall w patient_path reference_shape w1 r,
       coherent w ->
       gpv w patient_path reference_shape = (w1, r) ->
       coherent w1
       /\ model_calls w <= model_calls w1
       /\ forall v,
            r = Ok v ->
            current_patient (SESSION_STATE w1) = Some patient_path
            /\ exists n raw,
                 n < model_calls w1
                 /\ predict_segmentation n (patient_root_of patient_path) = Ok raw
                 /\ normalize_prediction resize_predicted_seg raw reference_shape
                    = Ok v.
Proof.
  split; [intros H; discriminate H|].
  intros w p ref w1 r Hc H.
  rewrite get_prediction_volume_steps in H.
  destruct (fetch w p) as [w2 fetched] eqn:F.
  destruct (fetch_prediction_coherent w p w2 fetched Hc F) as (Hc2 & Hle & Hraw).
  destruct fetched as [[raw|]|e].
  - destruct (Hraw raw eq_refl) as (Hp & n & Hn & Hm).
    destruct (invalid_prediction_shape raw).
    + injection H as <- <-. split; [exact Hc2|]. split; [exact Hle|]. discriminate.
    + injection H as <- <-. split; [exact Hc2|]. split; [exact Hle|].
      intros v Hv. split; [exact Hp|]. exists n, raw. auto.
  - injection H as <- <-. split; [exact Hc2|]. split; [exact Hle|]. discriminate.
  - injection H as <- <-. split; [exact Hc2|]. split; [exact Hle|]. discriminate.
Qed.
End CacheProperties.

Lemma cache_serves_requested_patient_witness :
  cache_coherent sample_model sample_root sample_cached_world
  /\ model_calls fresh_world <= model_calls sample_cached_world.
Proof.
  assert (Hc : cache_coherent sample_model sample_root fresh_world)
    by (intros H; discriminate H).
  assert (Hrun : sample_pipeline fresh_world "case_001"%string (2, 2, 1)
                 = (sample_cached_world, Ok sample_canonical)) by reflexivity.
  destruct (proj2 (cache_serves_requested_patient sample_model (nearest_resize 2 2)
                     sample_root)
              fresh_world "case_001"%string (2, 2, 1) sample_cached_world
              (Ok sample_canonical) Hc Hrun) as (H1 & H2 & _).
  split; assumption.
Defined.

(** ** The routes [get_slice] and [get_three_views] *)

Lemma plane_slice_cells {A} (d : A) (v : ndarray3 A) (plane : string) (i : nat) :
  nonempty3 v -> cells2 (plane_slice d v plane i) <> [].
Proof.
  intros Hv. destruct (plane_slice_shape d v plane i) as [Hwf Hpos].
  destruct (Hpos Hv) as [Hr Hc]. unfold wf2 in Hwf.
  intros Hnil. rewrite Hnil in Hwf. cbn [List.length] in Hwf. nia.
Qed.

Lemma normalize_image_slice_returns (slice_data : ndarray2 Q) :
  cells2 slice_data <> [] ->
  exists out, normalize_image_slice slice_data = Ok out
              /\ shape2 out = shape2 slice_data.
Proof.
  intros Hne. unfold normalize_image_slice.
  destruct (cells2 slice_data); [contradiction|].
  eexists. split; reflexivity.
Qed.



Section RouteProperties.
Variable figure : Type.
Variable draw_slice : ndarray2 Z -> option (ndarray2 Z) -> figure.
Variable draw_views
  : list (string * ndarray2 Z * option (ndarray2 Z) * (Z * Z) * string) -> figure.
Variable fig_to_base64 : figure -> string.
Variable format_0f : Q -> string.
Variable predict_segmentation : nat -> string -> result (ndarray Q).
Variable resize_predicted_seg : ndarray Q -> result (ndarray4 Q).
Variable patient_root_of : string -> string.
Variable load_volume : string -> string -> result (ndarray3 Q).
Variable load_flair : string -> result (ndarray3 Q * matrix).

Notation "'gpv'" :=
  (get_prediction_volume predict_segmentation resize_predicted_seg patient_root_of).

Lemma get_prediction_volume_shape (w : world) (patient_path : string)
      (reference_shape : nat * nat * nat) (w1 : world) (v : ndarray3 Z) :
  gpv w patient_path reference_shape = (w1, Ok v) -> shape3 v = reference_shape.
Proof.
  intros H.
  destruct (get_prediction_volume_inv predict_segmentation resize_predicted_seg
              patient_root_of w patient_path reference_shape w1 v H)
    as (raw & _ & _ & _ & Hn).
  apply (normalize_prediction_shape resize_predicted_seg raw reference_shape v Hn).
Qed.

(** X15. [get_slice] on a patient whose image loads and is not empty, once
    the canonical prediction is at hand and the class filter is readable,
    answers with an image for every plane text and every slice number: the
    figure of the image slice at the clamped position, normalised, over the
    prediction slice at the same position, filtered; nothing is resampled and
    nothing raises. *)
Theorem get_slice_shows_requested_slice
        (w : world) (patient_path modality plane selected_class : string)
        (slice_idx : Z) (img : ndarray3 Q) (w' : world) (pred_vol : ndarray3 Z) :
  patient_path_missing (Some patient_path) = false ->
  load_volume patient_path modality = Ok img ->
  nonempty3 img ->
  gpv w patient_path (shape3 img) = (w', Ok pred_vol) ->
  valid_class_filter selected_class = true ->
  let i := Z.to_nat (np_clip slice_idx 0 (Z.of_nat (plane_extent img plane) - 1)) in
  exists grey filtered,
    i < plane_extent img plane
    /\ normalize_image_slice (plane_slice 0%Q img plane i) = Ok grey
    /\ filter_prediction_by_class (plane_slice 0%Z pred_vol plane i) selected_class
       = Ok filtered
    /\ get_slice figure draw_slice fig_to_base64 predict_segmentation
         resize_predicted_seg patient_root_of load_volume
         w (Some patient_path) modality plane selected_class slice_idx
       = (w', Ok (JsonImage
                    (fig_to_base64
                       (draw_slice grey
                          (if slice_overlay_drawn filtered
                           then Some filtered else None))))).
Proof.
  intros Hp Hload Hi Hpred Hc i.
  pose proof (get_prediction_volume_shape _ _ _ _ _ Hpred) as Hs.
  destruct (extract_slice_by_plane_same_shape img pred_vol plane slice_idx Hi Hs)
    as [Hlt Hx]. fold i in Hlt, Hx.
  destruct (normalize_image_slice_returns (plane_slice 0%Q img plane i)
              (plane_slice_cells 0%Q img plane i Hi)) as (grey & Hg & _).
  destruct (filter_prediction_by_class_returns
              (plane_slice 0%Z pred_vol plane i) selected_class Hc) as [f Hf].
  exists grey, f. split; [exact Hlt|]. split; [exact Hg|]. split; [exact Hf|].
  unfold get_slice. rewrite Hp, Hload, Hpred, Hx. cbn [bind].
  rewrite Hf. cbn [bind]. unfold render_slice_with_overlay.
  rewrite Hg. reflexivity.
Qed.

End RouteProperties.

Lemma get_slice_shows_requested_slice_witness :
  exists grey filtered,
    Z.to_nat (np_clip 7 0 (Z.of_nat (plane_extent (mk3 2 2 1 [1; 2; 3; 4]%Q) "Axial") - 1))
    < plane_extent (mk3 2 2 1 [1; 2; 3; 4]%Q) "Axial"
    /\ normalize_image_slice
         (plane_slice 0%Q (mk3 2 2 1 [1; 2; 3; 4]%Q) "Axial"
            (Z.to_nat (np_clip 7 0
               (Z.of_nat (plane_extent (mk3 2 2 1 [1; 2; 3; 4]%Q) "Axial") - 1))))
       = Ok grey
    /\ filter_prediction_by_class
         (plane_slice 0%Z sample_canonical "Axial"
            (Z.to_nat (np_clip 7 0
               (Z.of_nat (plane_extent (mk3 2 2 1 [1; 2; 3; 4]%Q) "Axial") - 1))))
         "1"
       = Ok filtered
    /\ get_slice (ndarray2 Z * option (ndarray2 Z)) pair (fun _ => "png"%string)
         sample_model (nearest_resize 2 2) sample_root
         (fun _ _ => Ok (mk3 2 2 1 [1; 2; 3; 4]%Q))
         fresh_world (Some "case_001"%string) "FLAIR" "Axial" "1" 7
       = (sample_cached_world, Ok (JsonImage "png")).
Proof.
  apply (get_slice_shows_requested_slice
           (ndarray2 Z * option (ndarray2 Z)) pair (fun _ => "png"%string)
           sample_model (nearest_resize 2 2) sample_root
           (fun _ _ => Ok (mk3 2 2 1 [1; 2; 3; 4]%Q))
           fresh_world "case_001" "FLAIR" "Axial" "1" 7
           (mk3 2 2 1 [1; 2; 3; 4]%Q) sample_cached_world sample_canonical).
  - reflexivity.
  - reflexivity.
  - unfold nonempty3; simpl; lia.
  - reflexivity.
  - reflexivity.
Defined.


(** ** The frames of the sweep *)


Section FrameProperties.
Variable frame : Type.
Variable render_frame : ndarray2 Q -> ndarray2 Z -> frame.
Variable encode_gif : list frame -> nat -> string.


End FrameProperties.


(** ** The analysis answer *)

(** X18. In the answer of [get_analysis] the explanation is one of the four
    entries of [get_class_explanations]. When it is the entry of a class, the
    selected metrics are those of that class. The converse fails for every
    class text that reads as 1, 2 or 3 without being written exactly so
    (white space, a sign, a leading zero): the selected metrics are those of
    the class, the explanation is the one of the whole tumour. *)
Theorem analysis_explanation_and_metrics
        (img : ndarray3 Q) (affine : matrix) (pred_vol : ndarray3 Z)
        (selected_class : string) :
  let a := analysis_of_volumes img affine pred_vol selected_class in
  let class c := class_metrics_of pred_vol (voxel_volume_of affine) c in
  In (explanation a) class_explanation_keys
  /\ (explanation a <> "All"%string ->
      explanation a = selected_class
      /\ exists c, py_int selected_class = Ok c
                   /\ (c = 1 \/ c = 2 \/ c = 3)%Z
                   /\ selected_class_metrics a = Some (class c))
  /\ (forall c,
         py_int selected_class = Ok c -> (c = 1 \/ c = 2 \/ c = 3)%Z ->
         ~ In selected_class class_explanation_keys ->
         selected_class_metrics a = Some (class c)
         /\ explanation a = "All"%string).
Proof.
  intros a class. unfold a, analysis_of_volumes, explanation_key.
  cbn [explanation selected_class_metrics].
  unfold class_explanation_keys. cbn [existsb In].
  split; [|split].
  - destruct (String.eqb_spec selected_class "1"); [auto|].
    destruct (String.eqb_spec selected_class "2"); [auto|].
    destruct (String.eqb_spec selected_class "3"); [auto|].
    destruct (String.eqb_spec selected_class "All"); cbn [orb]; auto.
  - destruct (String.eqb_spec selected_class "1") as [->|];
      [intros _; split; [reflexivity|]; exists 1%Z; repeat split; auto|].
    destruct (String.eqb_spec selected_class "2") as [->|];
      [intros _; split; [reflexivity|]; exists 2%Z; repeat split; auto|].
    destruct (String.eqb_spec selected_class "3") as [->|];
      [intros _; split; [reflexivity|]; exists 3%Z; repeat split; auto|].
    destruct (String.eqb_spec selected_class "All") as [->|]; cbn [orb];
      intros H; contradiction H; reflexivity.
  - intros c Hc Hr Hnot.
    destruct (String.eqb_spec selected_class "1") as [->|N1]; [tauto|].
    destruct (String.eqb_spec selected_class "2") as [->|N2]; [tauto|].
    destruct (String.eqb_spec selected_class "3") as [->|N3]; [tauto|].
    destruct (String.eqb_spec selected_class "All") as [->|NA]; [tauto|].
    cbn [orb]. split; [|reflexivity].
    unfold get_selected_class_metrics.
    destruct (String.eqb_spec selected_class "All") as [->|_]; [tauto|].
    destruct (String.eqb_spec selected_class "None") as [->|_];
      [discriminate Hc|].
    destruct (String.eqb_spec selected_class "0") as [->|_];
      [injection Hc as <-; lia|].
    cbn [orb]. rewrite Hc. unfold calculate_class_metrics, class.
    destruct Hr as [-> | [-> | ->]]; reflexivity.
Qed.

Lemma analysis_explanation_and_metrics_witness :
  selected_class_metrics
    (analysis_of_volumes sample_image sample_affine sample_canonical " 2")
  = Some (class_metrics_of sample_canonical (voxel_volume_of sample_affine) 2)
  /\ explanation
       (analysis_of_volumes sample_image sample_affine sample_canonical " 2")
     = "All"%string.
Proof.
  apply (proj2 (proj2 (analysis_explanation_and_metrics sample_image sample_affine
                         sample_canonical " 2")) 2%Z).
  - reflexivity.
  - right; left; reflexivity.
  - intros [H | [H | [H | [H | []]]]]; discriminate H.
Defined.

(** ** The retinopathy decision *)

Lemma argmax_from_is_max (l pre : list Q) (best : Q) (best_i : nat) :
  best_i < List.length pre -> nth best_i pre 0%Q = best ->
  (forall p, In p pre -> (p <= best)%Q) ->
  argmax_from best best_i (List.length pre) l < List.length (pre ++ l)
  /\ forall p, In p (pre ++ l) ->
       (p <= nth (argmax_from best best_i (List.length pre) l) (pre ++ l) 0%Q)%Q.
Proof.
  revert pre best best_i.
  induction l as [|x rest IH]; intros pre best best_i Hi Hb Hmax;
    cbn [argmax_from].
  - rewrite app_nil_r. split; [exact Hi|]. rewrite Hb. exact Hmax.
  - assert (Hl : List.length (pre ++ [x]) = S (List.length pre))
      by (rewrite length_app; cbn; lia).
    assert (Happ : pre ++ x :: rest = (pre ++ [x]) ++ rest)
      by (rewrite <- app_assoc; reflexivity).
    rewrite Happ.
    destruct (Qle_bool x best) eqn:E.
    + apply Qle_bool_iff in E. rewrite <- Hl. apply IH.
      * rewrite Hl. lia.
      * rewrite app_nth1 by exact Hi. exact Hb.
      * intros p Hp. apply in_app_or in Hp. destruct Hp as [Hp | [<- | []]];
          [apply Hmax, Hp | exact E].
    + assert (Hlt : (best < x)%Q).
      { apply Qnot_le_lt. intros Hle. apply Qle_bool_iff in Hle. congruence. }
      rewrite <- Hl. apply (IH (pre ++ [x]) x (List.length pre)).
      * rewrite Hl. lia.
      * rewrite app_nth2 by lia. rewrite Nat.sub_diag. reflexivity.
      * intros p Hp. apply in_app_or in Hp. destruct Hp as [Hp | [<- | []]];
          [|apply Qle_refl].
        apply Qle_trans with best; [apply Hmax, Hp | apply Qlt_le_weak, Hlt].
Qed.

Lemma np_argmax_is_max (l : list Q) :
  l <> [] ->
  np_argmax l < List.length l
  /\ forall p, In p l -> (p <= nth (np_argmax l) l 0%Q)%Q.
Proof.
  destruct l as [|x rest]; [congruence|]. intros _.
  apply (argmax_from_is_max rest [x] x 0).
  - cbn. lia.
  - reflexivity.
  - intros p [<- | []]. apply Qle_refl.
Qed.

(** X19. The decision of [predict_dr_severity] on a row of class
    probabilities. An empty row ends in the RuntimeError of the handler; any
    other row gives a report, with no index error. The severity lies in 0..4,
    the result is "Normal" exactly for severity 0, and the five display names
    are listed in their order. With at most five probabilities the severity is
    the position of the largest one and the confidence is 100 times that
    probability. With more, a largest probability beyond position 4 gives
    severity 4 and the confidence of class 4, which is not the largest. *)
Theorem predict_dr_severity_report (probabilities : list Q) :
  (probabilities = [] ->
   exists cause, predict_dr_severity probabilities = RuntimeError cause)
  /\ (probabilities <> [] ->
      exists r,
        predict_dr_severity probabilities = Done r
        /\ (0 <= severity_level r <= 4)%Z
        /\ (result_type r = "Normal"%string <-> severity_level r = 0%Z)
        /\ map fst (all_predictions r)
           = ["No DR"; "Mild"; "Moderate"; "Severe"; "Proliferative DR"]%string
        /\ model_precision r = confidence r
        /\ (List.length probabilities <= 5 ->
            severity_level r = Z.of_nat (np_argmax probabilities)
            /\ forall p, In p probabilities -> (p * 100 <= confidence r)%Q)
        /\ (5 <= np_argmax probabilities ->
            severity_level r = 4%Z
            /\ confidence r = (nth 4 probabilities 0%Q * 100)%Q)).
Proof.
  split.
  - intros ->. eexists. reflexivity.
  - intros Hne. destruct (np_argmax_is_max probabilities Hne) as [Hlt Hmax].
    unfold predict_dr_severity, predict_dr_severity_try.
    destruct probabilities as [|p0 rest] eqn:Ep; [congruence|].
    rewrite <- Ep in *. cbn [bind].
    set (k := np_argmax probabilities) in *.
    set (idx := Z.max 0 (Z.min 4 (Z.of_nat k))).
    assert (Hidx : (0 <= idx <= 4)%Z) by (unfold idx; lia).
    assert (Hin : (idx < Z.of_nat (List.length probabilities))%Z)
      by (unfold idx; lia).
    unfold list_item.
    rewrite (py_index_in_range (List.length probabilities) idx) by lia.
    cbn [bind].
    destruct (nth_error probabilities (Z.to_nat idx)) as [c|] eqn:Ec;
      [|apply nth_error_None in Ec; lia].
    rewrite (py_index_in_range (List.length DR_CLASSES) idx)
      by (cbn [DR_CLASSES List.length]; lia).
    cbn [bind].
    assert (Hc : c = nth (Z.to_nat idx) probabilities 0%Q)
      by (symmetry; apply nth_error_nth; exact Ec).
    assert (Hcases : (idx = 0 \/ idx = 1 \/ idx = 2 \/ idx = 3 \/ idx = 4)%Z)
      by lia.
    assert (Hrest :
      forall name,
        nth_error DR_CLASSES (Z.to_nat idx) = Some name ->
        exists r,
          Done {| predicted_class := str_dict_get CLASS_DISPLAY_NAMES name name;
                  severity_level := idx;
                  result_type := match dict_get SEVERITY_TO_RESULT idx with
                                 | Some r0 => r0
                                 | None => "Normal"%string
                                 end;
                  confidence := (c * 100)%Q;
                  model_precision := (c * 100)%Q;
                  all_predictions :=
                    map (fun i =>
                           (str_dict_get CLASS_DISPLAY_NAMES
                              (nth i DR_CLASSES EmptyString)
                              (nth i DR_CLASSES EmptyString),
                            if i <? List.length probabilities
                            then (nth i probabilities 0%Q * 100)%Q else 0%Q))
                        (seq 0 5) |} = Done r
          /\ (0 <= severity_level r <= 4)%Z
          /\ (result_type r = "Normal"%string <-> severity_level r = 0%Z)
          /\ map fst (all_predictions r)
             = ["No DR"; "Mild"; "Moderate"; "Severe"; "Proliferative DR"]%string
          /\ model_precision r = confidence r
          /\ (List.length probabilities <= 5 ->
              severity_level r = Z.of_nat k
              /\ forall p, In p probabilities -> (p * 100 <= confidence r)%Q)
          /\ (5 <= k ->
              severity_level r = 4%Z
              /\ confidence r = (nth 4 probabilities 0%Q * 100)%Q)).
    { intros name _. eexists. split; [reflexivity|].
      cbn [severity_level result_type all_predictions model_precision confidence].
      split; [exact Hidx|]. split; [|split; [reflexivity|split; [reflexivity|split]]].
      - destruct Hcases as [-> | [-> | [-> | [-> | ->]]]]; cbn;
          split; intros H; try reflexivity; discriminate H.
      - intros Hlen. assert (Hk : idx = Z.of_nat k) by (unfold idx; lia).
        split; [exact Hk|]. intros p Hp. rewrite Hc, Hk, Nat2Z.id.
        pose proof (Hmax p Hp). lra.
      - intros Hk. assert (H4 : idx = 4%Z) by (unfold idx; lia).
        split; [exact H4|]. rewrite Hc, H4. reflexivity. }
    destruct (nth_error DR_CLASSES (Z.to_nat idx)) as [name|] eqn:En.
    + apply (Hrest name eq_refl).
    + apply nth_error_None in En. cbn [DR_CLASSES List.length] in En. lia.
Qed.

Lemma predict_dr_severity_report_witness :
  exists r,
    predict_dr_severity [1 # 10; 1 # 10; 1 # 10; 1 # 10; 2 # 10; 4 # 10]%Q = Done r
    /\ (0 <= severity_level r <= 4)%Z
    /\ (result_type r = "Normal"%string <-> severity_level r = 0%Z)
    /\ map fst (all_predictions r)
       = ["No DR"; "Mild"; "Moderate"; "Severe"; "Proliferative DR"]%string
    /\ model_precision r = confidence r
    /\ (List.length [1 # 10; 1 # 10; 1 # 10; 1 # 10; 2 # 10; 4 # 10]%Q <= 5 ->
        severity_level r
        = Z.of_nat (np_argmax [1 # 10; 1 # 10; 1 # 10; 1 # 10; 2 # 10; 4 # 10]%Q)
        /\ forall p, In p [1 # 10; 1 # 10; 1 # 10; 1 # 10; 2 # 10; 4 # 10]%Q ->
                     (p * 100 <= confidence r)%Q)
    /\ (5 <= np_argmax [1 # 10; 1 # 10; 1 # 10; 1 # 10; 2 # 10; 4 # 10]%Q ->
        severity_level r = 4%Z
        /\ confidence r
           = (nth 4 [1 # 10; 1 # 10; 1 # 10; 1 # 10; 2 # 10; 4 # 10]%Q 0%Q * 100)%Q).
Proof.
  apply (predict_dr_severity_report
           [1 # 10; 1 # 10; 1 # 10; 1 # 10; 2 # 10; 4 # 10]%Q).
  discriminate.
Defined.

(** ** The cells of the canonical prediction *)






Section CanonicalCells.
Variable resize_predicted_seg : ndarray Q -> result (ndarray4 Q).

End CanonicalCells.

